(** * The review scraper service (app.py): aggregation cycle, snapshot store
      and background polling job

    A shallow embedding of [scrape_reviews], [background_scraper] and the
    request handlers [scrape_endpoint], [get_latest] and
    [stop_scraping_endpoint] of app.py.

    The module-level globals of app.py ([latest_data], [scraping_thread],
    [stop_scraping]) are fields of one [World]; dict objects live in a heap
    and are referred to by their address, so that two names for one dict
    (the [result] of a cycle and the global [latest_data]) see each other's
    updates. Python statements are computations in a state-and-exception
    monad [M]; [try ... except Exception] is [try_except].

    Two assumptions bound what the development covers. A cycle of
    [scrape_reviews] has at most one exception that no per-source handler
    catches ([env_unexpected]). Requests are handled one at a time ([step],
    [run]); app.py takes no lock and runs Flask with [threaded=True], so
    handlers can overlap, and [overlapping_scrapes] gives one such
    execution. *)

From Stdlib Require Import ZArith Lia.
From stdpp Require Import base option list strings pretty.

Local Open Scope string_scope.
Local Open Scope list_scope.

(** ** Data *)

(** A review record as returned by a scraper's [get_reviews]; the scrapers
    are outside this file and the handlers never look inside a record. *)
Definition ReviewRecord : Type := string.

(** The value under the ['status'] key. ['no_data'] is only ever the status
    of the initial [latest_data]. *)
Inductive Status := NoData | Success | PartialSuccess | Failed.

Global Instance Status_eq_dec : EqDecision Status.
Proof. solve_decision. Defined.

(** The dict built by [scrape_reviews] (and the initial [latest_data]).
    The first five keys are always present; ['background_scraping'] and
    ['refresh_interval'] are only present once [scrape_endpoint] has set
    them, hence the options. The timestamp is the clock reading that
    [datetime.utcnow()] returned ([None] in the initial dict). *)
Record Dict := mkDict {
  timestamp : option nat;
  yelp_reviews : list ReviewRecord;
  amazon_reviews : list ReviewRecord;
  status : Status;
  errors : list string;
  background_scraping : option bool;
  refresh_interval : option Z
}.

Global Instance Dict_inhabited : Inhabited Dict :=
  populate (mkDict None [] [] NoData [] None None).

(** The two scraper objects, [yelp_scraper] and [amazon_scraper]. *)
Inductive Source := Yelp | Amazon.

Global Instance Source_eq_dec : EqDecision Source.
Proof. solve_decision. Defined.

(** What one call of [get_reviews] does: it returns a list of records or
    raises an [Exception] with a message. *)
Inductive Outcome := Ok (records : list ReviewRecord) | Err (msg : string).

(** The statements of the outer [try] block of [scrape_reviews] that make a
    call and are not inside the [try] body of one source: the opening
    [logger.info] (line 88), the initialisation of [result] with
    [datetime.utcnow()] (lines 91-97) and the two per-source [except]
    blocks (lines 105-108 and 116-119, which call [str(e)] and
    [logger.error]). An exception raised there is not caught by a
    per-source handler: it is what reaches the outer handler of lines
    132-145. Inside a per-source [try] body only the call of [get_reviews]
    can raise (the scrapers return lists, so [len] is defined). A cycle has
    at most one exception of this kind: the outer handler runs only after
    one, so its own statements (lines 133-144, again [str(e)],
    [logger.error] and [datetime.utcnow()]) complete. A second exception,
    raised inside the outer handler, would leave [scrape_reviews]; cycles
    with two such exceptions are not covered. *)
Inductive Point := AtStart | AtInit | InYelpExcept | InAmazonExcept.

Global Instance Point_eq_dec : EqDecision Point.
Proof. solve_decision. Defined.

(** Everything the outside world decides during one run of
    [scrape_reviews]: what each scraper does and how long it takes, and
    whether one of the statements listed in [Point] raises. *)
Record CycleEnv := mkEnv {
  env_yelp : Outcome;
  env_yelp_secs : nat;
  env_amazon : Outcome;
  env_amazon_secs : nat;
  env_unexpected : option (Point * string)
}.

(** One recorded call [scraper.get_reviews(input)] and the clock reading at
    which it started. *)
Record Fetch := mkFetch {
  fetch_source : Source;
  fetch_input : string;
  fetch_started : nat
}.

Inductive Level := INFO | ERROR.

(** Where a [background_scraper] thread is. [Fresh]: started, nothing run
    yet. [AtLoopTop]: about to evaluate [stop_scraping.is_set()] (line 159).
    [InCycle]: inside [scrape_reviews] (line 160). [InWait]: blocked in
    [stop_scraping.wait(refresh_interval)] (line 163). [Finished]: the
    function has returned and [is_alive()] is False. *)
Inductive PC := Fresh | AtLoopTop | InCycle | InWait | Finished.

Global Instance PC_eq_dec : EqDecision PC.
Proof. solve_decision. Defined.

(** A [threading.Thread] running [background_scraper] with its [args]. *)
Record Thread := mkThread {
  thr_yelp : string;
  thr_amazon : string;
  thr_interval : Z;
  thr_pc : PC
}.

(** The process state: the clock, the dict objects, the three globals of
    app.py, the thread objects created so far (a thread is named by its
    index), and the calls made to the scrapers and to the logger. *)
Record World := mkWorld {
  now : nat;
  heap : list Dict;
  latest_data : nat;
  scraping_thread : option nat;
  stop_scraping : bool;
  threads : list Thread;
  fetches : list Fetch;
  log : list (Level * string)
}.

(** Lines 56-62 and 69-70: the state when the module has been loaded. *)
Definition initial_world : World :=
  mkWorld 0 [mkDict None [] [] NoData [] None None] 0 None false [] [] [].

(** ** The monad of statements *)

Inductive Res (A : Type) := Val (a : A) | Exc (e : string).
Arguments Val {A} a.
Arguments Exc {A} e.

Definition M (A : Type) : Type := World -> Res A * World.

Definition ret {A} (a : A) : M A := fun w => (Val a, w).

Definition raise {A} (e : string) : M A := fun w => (Exc e, w).

Definition bind {A B} (m : M A) (k : A -> M B) : M B :=
  fun w => match m w with
           | (Val a, w') => k a w'
           | (Exc e, w') => (Exc e, w')
           end.

(** [try: m except Exception as e: h e]. The state changes made by [m]
    before it raised are kept. *)
Definition try_except {A} (m : M A) (h : string -> M A) : M A :=
  fun w => match m w with
           | (Val a, w') => (Val a, w')
           | (Exc e, w') => h e w'
           end.

Declare Scope py_scope.
Delimit Scope py_scope with py.
Notation "'let*' x ':=' m 'in' k" := (bind m (fun x => k))
  (at level 10, x name, m at level 100, k at level 200) : py_scope.
Notation "m '>>' k" := (bind m (fun _ => k))
  (at level 100, k at level 200, right associativity) : py_scope.
Local Open Scope py_scope.

(** ** Primitive statements *)

Definition get_world : M World := fun w => (Val w, w).

Definition modify (f : World -> World) : M unit := fun w => (Val tt, f w).

Definition set_now (n : nat) (w : World) : World :=
  mkWorld n (heap w) (latest_data w) (scraping_thread w) (stop_scraping w)
          (threads w) (fetches w) (log w).

Definition set_heap (h : list Dict) (w : World) : World :=
  mkWorld (now w) h (latest_data w) (scraping_thread w) (stop_scraping w)
          (threads w) (fetches w) (log w).

Definition set_latest_data (l : nat) (w : World) : World :=
  mkWorld (now w) (heap w) l (scraping_thread w) (stop_scraping w)
          (threads w) (fetches w) (log w).

Definition set_scraping_thread (t : option nat) (w : World) : World :=
  mkWorld (now w) (heap w) (latest_data w) t (stop_scraping w)
          (threads w) (fetches w) (log w).

Definition set_stop_scraping (b : bool) (w : World) : World :=
  mkWorld (now w) (heap w) (latest_data w) (scraping_thread w) b
          (threads w) (fetches w) (log w).

Definition set_threads (ts : list Thread) (w : World) : World :=
  mkWorld (now w) (heap w) (latest_data w) (scraping_thread w)
          (stop_scraping w) ts (fetches w) (log w).

Definition set_fetches (fs : list Fetch) (w : World) : World :=
  mkWorld (now w) (heap w) (latest_data w) (scraping_thread w)
          (stop_scraping w) (threads w) fs (log w).

Definition set_log (lg : list (Level * string)) (w : World) : World :=
  mkWorld (now w) (heap w) (latest_data w) (scraping_thread w)
          (stop_scraping w) (threads w) (fetches w) lg.

(** Python truthiness of a [str]: only the empty string is falsy. *)
Definition truthy (s : string) : bool :=
  match s with EmptyString => false | String _ _ => true end.

(** Python truthiness of a list. *)
Definition nonempty {A} (l : list A) : bool :=
  match l with [] => false | _ :: _ => true end.

(** [logger.info(msg)] and [logger.error(msg)]. *)
Definition logger_info (msg : string) : M unit :=
  modify (fun w => set_log (log w ++ [(INFO, msg)]) w).

Definition logger_error (msg : string) : M unit :=
  modify (fun w => set_log (log w ++ [(ERROR, msg)]) w).

(** [datetime.utcnow()]. *)
Definition utcnow : M nat := fun w => (Val (now w), w).

(** A dict display [{...}]: a new object, whose address is returned. *)
Definition new_dict (d : Dict) : M nat :=
  fun w => (Val (length (heap w)), set_heap (heap w ++ [d]) w).

(** Reading the dict at an address. *)
Definition read_dict (r : nat) : M Dict := fun w => (Val (heap w !!! r), w).

(** An in-place update of the dict at an address: [r[key] = value], or
    [r[key].append(value)]. Every owner of the address sees it. *)
Definition update_dict (r : nat) (f : Dict -> Dict) : M unit :=
  modify (fun w => set_heap (alter f r (heap w)) w).

Definition with_yelp_reviews (v : list ReviewRecord) (d : Dict) : Dict :=
  mkDict (timestamp d) v (amazon_reviews d) (status d) (errors d)
         (background_scraping d) (refresh_interval d).

Definition with_amazon_reviews (v : list ReviewRecord) (d : Dict) : Dict :=
  mkDict (timestamp d) (yelp_reviews d) v (status d) (errors d)
         (background_scraping d) (refresh_interval d).

Definition with_status (v : Status) (d : Dict) : Dict :=
  mkDict (timestamp d) (yelp_reviews d) (amazon_reviews d) v (errors d)
         (background_scraping d) (refresh_interval d).

Definition append_error (msg : string) (d : Dict) : Dict :=
  mkDict (timestamp d) (yelp_reviews d) (amazon_reviews d) (status d)
         (errors d ++ [msg]) (background_scraping d) (refresh_interval d).

Definition with_background_scraping (v : bool) (d : Dict) : Dict :=
  mkDict (timestamp d) (yelp_reviews d) (amazon_reviews d) (status d)
         (errors d) (Some v) (refresh_interval d).

Definition with_refresh_interval (v : Z) (d : Dict) : Dict :=
  mkDict (timestamp d) (yelp_reviews d) (amazon_reviews d) (status d)
         (errors d) (background_scraping d) (Some v).

(** The name of a source in the log and error messages. *)
Definition source_name (s : Source) : string :=
  match s with Yelp => "Yelp" | Amazon => "Amazon" end.

(** What the environment says of the call to one scraper. *)
Definition source_outcome (s : Source) (env : CycleEnv) : Outcome :=
  match s with Yelp => env_yelp env | Amazon => env_amazon env end.

Definition source_secs (s : Source) (env : CycleEnv) : nat :=
  match s with Yelp => env_yelp_secs env | Amazon => env_amazon_secs env end.

(** [scraper.get_reviews(input)]: the call is recorded with the time it
    starts at, it takes the time the environment says, and it returns or
    raises as the environment says. *)
Definition get_reviews (s : Source) (input : string) (env : CycleEnv)
  : M (list ReviewRecord) :=
  modify (fun w => set_fetches (fetches w ++ [mkFetch s input (now w)]) w) >>
  modify (fun w => set_now (now w + source_secs s env) w) >>
  match source_outcome s env with
  | Ok records => ret records
  | Err msg => raise msg
  end.

(** The statement at point [p] raises if the environment says so. *)
Definition unexpected_at (p : Point) (env : CycleEnv) : M unit :=
  match env_unexpected env with
  | Some (q, msg) => if decide (p = q) then raise msg else ret tt
  | None => ret tt
  end.

(** [len(reviews)] inside an f-string. *)
Definition count_str {A} (l : list A) : string := pretty (length l).

(** ** [scrape_reviews] (lines 73-145) *)

(** Lines 99-108 and 110-119: the block of one source. The two blocks
    differ only in the scraper called, the key assigned and the name in
    the messages. *)
Definition scrape_source (s : Source) (input : string) (result : nat)
    (env : CycleEnv) : M unit :=
  if truthy input then
    try_except
      (let* reviews := get_reviews s input env in
       update_dict result
         (match s with
          | Yelp => with_yelp_reviews reviews
          | Amazon => with_amazon_reviews reviews
          end) >>
       logger_info ("Successfully scraped " +:+ count_str reviews +:+ " "
                    +:+ source_name s +:+ " reviews"))
      (fun e =>
         unexpected_at
           (match s with Yelp => InYelpExcept | Amazon => InAmazonExcept end)
           env >>
         let error_msg := source_name s +:+ " scraping failed: " +:+ e in
         logger_error error_msg >>
         update_dict result (append_error error_msg))
  else ret tt.

(** Lines 88-130: the body of the outer [try]. *)
Definition scrape_reviews_body (yelp_input amazon_input : string)
    (env : CycleEnv) : M nat :=
  unexpected_at AtStart env >>
  logger_info ("Starting scrape for Yelp: " +:+ yelp_input +:+ ", Amazon: "
               +:+ amazon_input) >>
  unexpected_at AtInit env >>
  let* ts := utcnow in
  let* result := new_dict (mkDict (Some ts) [] [] Success [] None None) in
  scrape_source Yelp yelp_input result env >>
  scrape_source Amazon amazon_input result env >>
  let* d := read_dict result in
  (if nonempty (errors d) && negb (nonempty (yelp_reviews d))
      && negb (nonempty (amazon_reviews d))
   then update_dict result (with_status Failed)
   else if nonempty (errors d)
   then update_dict result (with_status PartialSuccess)
   else ret tt) >>
  modify (set_latest_data result) >>
  ret result.

(** Lines 132-145: the handler of the outer [try]. It runs after the one
    exception of the cycle that no per-source handler caught (see [Point]);
    its statements are not inside any [try], and they complete. *)
Definition scrape_reviews_handler (e : string) : M nat :=
  let error_msg := "General scraping error: " +:+ e in
  logger_error error_msg >>
  let* ts := utcnow in
  let* result := new_dict (mkDict (Some ts) [] [] Failed [error_msg] None None) in
  modify (set_latest_data result) >>
  ret result.

(** The function returns the dict it built, that is its address. (Its
    third parameter, [refresh_interval], is never read.) *)
Definition scrape_reviews (yelp_input amazon_input : string)
    (env : CycleEnv) : M nat :=
  try_except (scrape_reviews_body yelp_input amazon_input env)
             scrape_reviews_handler.

(** ** [background_scraper] (lines 148-166) *)

Definition with_pc (pc : PC) (t : Thread) : Thread :=
  mkThread (thr_yelp t) (thr_amazon t) (thr_interval t) pc.

Definition set_pc (tid : nat) (pc : PC) : M unit :=
  modify (fun w => set_threads (alter (with_pc pc) tid (threads w)) w).

Definition thread_pc (tid : nat) (w : World) : PC :=
  match threads w !! tid with
  | Some t => thr_pc t
  | None => Finished
  end.

(** [thread.is_alive()]. *)
Definition is_alive (tid : nat) (w : World) : bool :=
  bool_decide (thread_pc tid w <> Finished).

(** Line 166 and the return of the thread's function. *)
Definition leave_loop (tid : nat) : M unit :=
  logger_info "Background scraper stopped" >>
  set_pc tid Finished.

(** [threading.TIMEOUT_MAX] in seconds (CPython on a 64-bit platform).
    [Event.wait(timeout)] on an event that is not set raises
    [OverflowError] for an [int] timeout above it; on an event that is set
    it returns at once without looking at the timeout. *)
Definition TIMEOUT_MAX : Z := 9223372036.

(** One step of the thread [tid], from one of the places of [PC] to the
    next. A thread inside [scrape_reviews] completes the cycle with the
    environment [Some env]; with [None] its fetches are still under way and
    it does not move. After the cycle the thread calls
    [stop_scraping.wait(refresh_interval)] (line 163): with the event set
    it leaves the loop, with an interval above [TIMEOUT_MAX] the call
    raises, and nothing in [background_scraper] catches it; otherwise the
    thread is in the wait. A wait that times out has lasted
    [refresh_interval] seconds. *)
Definition background_scraper_step (tid : nat) (env : option CycleEnv)
  : M unit :=
  let* w := get_world in
  match threads w !! tid with
  | None => ret tt
  | Some t =>
      match thr_pc t with
      | Fresh =>
          logger_info ("Starting background scraper with "
                       +:+ pretty (thr_interval t) +:+ "s interval") >>
          set_pc tid AtLoopTop
      | AtLoopTop =>
          if stop_scraping w then leave_loop tid else set_pc tid InCycle
      | InCycle =>
          match env with
          | Some env =>
              scrape_reviews (thr_yelp t) (thr_amazon t) env >>
              let* w' := get_world in
              if stop_scraping w' then leave_loop tid
              else if (TIMEOUT_MAX <? thr_interval t)%Z
              then raise "timestamp too large to convert to C _PyTime_t"
              else set_pc tid InWait
          | None => ret tt
          end
      | InWait =>
          if stop_scraping w then leave_loop tid
          else
            modify (fun w => set_now (now w + Z.to_nat (thr_interval t)) w) >>
            set_pc tid AtLoopTop
      | Finished => ret tt
      end
  end.

(** The step as a change of the process state. An exception that leaves the
    thread's function ends the thread. *)
Definition thread_step (tid : nat) (env : option CycleEnv) (w : World)
  : World :=
  match background_scraper_step tid env w with
  | (Val _, w') => w'
  | (Exc _, w') => set_threads (alter (with_pc Finished) tid (threads w')) w'
  end.

(** ** The request handlers *)

(** [threading.Thread(target=background_scraper, args=..., daemon=True)]
    followed by [start()]. *)
Definition start_thread (yelp_input amazon_input : string) (interval : Z)
  : M nat :=
  fun w => (Val (length (threads w)),
            set_threads
              (threads w ++ [mkThread yelp_input amazon_input interval Fresh])
              w).

(** The places at which a thread finds out that the stop event is set:
    blocked in [wait] (it is woken by [set()]), or about to test
    [is_set()]. *)
Definition outside_cycle (pc : PC) : bool :=
  match pc with
  | Fresh | AtLoopTop | InWait => true
  | InCycle | Finished => false
  end.

Definition return_outside_cycle (t : Thread) : Thread :=
  if outside_cycle (thr_pc t) then with_pc Finished t else t.

(** [stop_scraping] is one event shared by all threads: while it is set,
    every thread that is not inside a cycle sees it, logs line 166 and
    returns, whether or not it is the thread being joined. A thread blocked
    in [wait] is woken by [set()]. A thread about to test [is_set()] makes
    the test while the event is set; one that makes it before [set()] or
    after [clear()] has entered its cycle, and is a thread whose step to
    [InCycle] comes before the request. *)
Definition threads_outside_cycle_return : M unit :=
  modify (fun w =>
    set_log
      (log w ++ ((fun _ => (INFO, "Background scraper stopped"))
                   <$> filter (fun t => outside_cycle (thr_pc t) = true)
                         (threads w)))
      (set_threads (return_outside_cycle <$> threads w) w)).

(** [scraping_thread.join(timeout=5)], called with the stop event set. A
    thread that is not inside a cycle sees the event at its next step and
    returns: from [Fresh] in two steps, from [AtLoopTop] and [InWait] in
    one. A thread inside a cycle either completes it within the five
    seconds ([in_time = Some env]), finds the event set in [wait] and
    returns, or is still fetching when the timeout elapses
    ([in_time = None]) and is left where it is. By the time the join
    returns the other threads that are not inside a cycle have seen the
    event too. Another thread that is inside a cycle is still fetching
    when the join returns: one that completes its cycle while the event is
    set finds it set in [wait] and returns, which is the state reached when
    its step comes just before the request. *)
Definition join (tid : nat) (in_time : option CycleEnv) : M unit :=
  modify (fun w => thread_step tid in_time (thread_step tid in_time w)) >>
  threads_outside_cycle_return.

(** Lines 226-229 and 272-275: [stop_scraping.set()], the join and
    [stop_scraping.clear()]. *)
Definition set_join_clear (tid : nat) (in_time : option CycleEnv) : M unit :=
  modify (set_stop_scraping true) >>
  join tid in_time >>
  modify (set_stop_scraping false).

(** The query parameters of a request to [/scrape]: [None] is a missing
    parameter; [arg_refresh_interval] is what
    [request.args.get('refresh_interval', type=int)] gives. *)
Record Args := mkArgs {
  arg_yelp_url : option string;
  arg_amazon_url : option string;
  arg_refresh_interval : option Z
}.

(** Lines 214-215: [request.args.get('yelp_url', '')] and
    [request.args.get('amazon_url', '')]. *)
Definition yelp_input_of (args : Args) : string :=
  default EmptyString (arg_yelp_url args).

Definition amazon_input_of (args : Args) : string :=
  default EmptyString (arg_amazon_url args).

(** The argument of [jsonify]. [format_response] is imported from
    utils.helpers, which is not part of this file: [Formatted d] stands for
    [format_response(d)]. *)
Inductive Body :=
| Formatted (d : Dict)
| ErrorBody (error : string) (example : option string)
| MessageBody (message : string) (status_field : string).

(** A response: the body and the HTTP status code. *)
Definition Response : Type := Body * nat.

(** [refresh_interval and refresh_interval > 0]. *)
Definition interval_requested (refresh_interval : option Z) : bool :=
  match refresh_interval with
  | None => false
  | Some z => negb (z =? 0)%Z && (0 <? z)%Z
  end.

(** Lines 225-229: stop any existing background scraping. [in_time] says
    how the join ends when the running thread is inside a cycle. *)
Definition stop_existing (in_time : option CycleEnv) : M unit :=
  let* w := get_world in
  match scraping_thread w with
  | Some tid => if is_alive tid w then set_join_clear tid in_time else ret tt
  | None => ret tt
  end.

(** Lines 231-245: the immediate cycle, the start of the background thread
    and the response. *)
Definition scrape_and_start (yelp_input amazon_input : string)
    (refresh_interval : option Z) (env : CycleEnv) : M Response :=
  let* result := scrape_reviews yelp_input amazon_input env in
  match refresh_interval with
  | Some z =>
      if interval_requested refresh_interval then
        let* tid := start_thread yelp_input amazon_input z in
        modify (set_scraping_thread (Some tid)) >>
        update_dict result (with_background_scraping true) >>
        update_dict result (with_refresh_interval z)
      else ret tt
  | None => ret tt
  end >>
  let* d := read_dict result in
  ret (Formatted d, 200).

(** Lines 200-249. [env] is the environment of the immediate cycle of
    line 232. *)
Definition scrape_endpoint (args : Args) (in_time : option CycleEnv)
    (env : CycleEnv) : M Response :=
  try_except
    (let yelp_input := yelp_input_of args in
     let amazon_input := amazon_input_of args in
     let refresh_interval := arg_refresh_interval args in
     if negb (truthy yelp_input) && negb (truthy amazon_input) then
       ret (ErrorBody
              "Please provide at least one URL parameter: yelp_url or amazon_url"
              (Some "/scrape?yelp_url=https://www.yelp.com/biz/restaurant-name"),
            400)
     else
       stop_existing in_time >>
       scrape_and_start yelp_input amazon_input refresh_interval env)
    (fun e =>
       logger_error ("Error in scrape endpoint: " +:+ e) >>
       ret (ErrorBody "Internal server error" None, 500)).

(** Lines 252-261. *)
Definition get_latest : M Response :=
  try_except
    (let* w := get_world in
     let* d := read_dict (latest_data w) in
     ret (Formatted d, 200))
    (fun e =>
       logger_error ("Error in latest endpoint: " +:+ e) >>
       ret (ErrorBody "Internal server error" None, 500)).

(** Lines 264-281. *)
Definition stop_scraping_endpoint (in_time : option CycleEnv) : M Response :=
  try_except
    (let* w := get_world in
     let alive := match scraping_thread w with
                  | Some tid => is_alive tid w
                  | None => false
                  end in
     if alive then
       match scraping_thread w with
       | Some tid => set_join_clear tid in_time
       | None => ret tt
       end >>
       ret (MessageBody "Background scraping stopped" "success", 200)
     else
       ret (MessageBody "No background scraping active" "info", 200))
    (fun e =>
       logger_error ("Error stopping scraping: " +:+ e) >>
       ret (ErrorBody "Internal server error" None, 500)).

(** The [stopped] flag of the stop operation, read off the response. *)
Definition stopped (r : Response) : bool :=
  match r with
  | (MessageBody "Background scraping stopped" _, _) => true
  | _ => false
  end.

(** ** The running service *)

(** What can happen next: a request is handled, or a background thread
    takes a step. This is the service with its requests handled one at a
    time: a request is one step, and no other request and no step of
    another thread falls between two statements of a handler. The only
    point at which a handler waits for a thread is the join, and what the
    joined thread does during the join is given with the request
    ([in_time]). A thread is inside a cycle from the test of line 159 until
    [scrape_reviews] has returned; the cycle takes effect in the step that
    completes it.

    app.py itself does not serialise requests: line 313 runs Flask with
    [threaded=True] and no handler takes a lock. Executions in which two
    handlers overlap are not runs of [step]. *)
Inductive Event :=
| EvScrape (args : Args) (in_time : option CycleEnv) (env : CycleEnv)
| EvStop (in_time : option CycleEnv)
| EvLatest
| EvThread (tid : nat) (env : CycleEnv).

Definition step (w : World) (ev : Event) : World :=
  match ev with
  | EvScrape args in_time env => snd (scrape_endpoint args in_time env w)
  | EvStop in_time => snd (stop_scraping_endpoint in_time w)
  | EvLatest => snd (get_latest w)
  | EvThread tid env => thread_step tid (Some env) w
  end.

Definition run (w : World) (evs : list Event) : World := foldl step w evs.

(** Two [/scrape] requests whose handlers overlap: both have passed lines
    225-229 before either reaches line 232. *)
Definition overlapping_scrapes (args1 args2 : Args) (env1 env2 : CycleEnv)
  : M (Response * Response) :=
  stop_existing None >>
  stop_existing None >>
  let* r1 := scrape_and_start (yelp_input_of args1) (amazon_input_of args1)
               (arg_refresh_interval args1) env1 in
  let* r2 := scrape_and_start (yelp_input_of args2) (amazon_input_of args2)
               (arg_refresh_interval args2) env2 in
  ret (r1, r2).

(** The threads that are alive, by index. *)
Definition live_jobs (w : World) : list nat :=
  filter (fun tid => is_alive tid w = true) (seq 0 (length (threads w))).

(** * Notions used in the statements *)

(** ** One cycle *)

(** The part of the state that controls the polling job. *)
Definition same_jobs (w w' : World) : Prop :=
  scraping_thread w' = scraping_thread w /\
  stop_scraping w' = stop_scraping w /\
  threads w' = threads w.

(** What the block of one source (lines 99-108, 110-119) does to
    [result] when it runs to its end: nothing if the source is not
    requested, the reviews stored if the call returned, an entry added to
    ['errors'] if it raised. *)
Definition source_update (s : Source) (input : string) (env : CycleEnv)
    (d : Dict) : Dict :=
  if truthy input then
    match source_outcome s env, s with
    | Ok records, Yelp => with_yelp_reviews records d
    | Ok records, Amazon => with_amazon_reviews records d
    | Err msg, _ =>
        append_error (source_name s +:+ " scraping failed: " +:+ msg) d
    end
  else d.

(** The calls that the block of one source makes when it starts at time
    [t], and the time it takes. *)
Definition source_fetches (s : Source) (input : string) (t : nat)
  : list Fetch :=
  if truthy input then [mkFetch s input t] else [].

Definition source_elapsed (s : Source) (input : string) (env : CycleEnv)
  : nat :=
  if truthy input then source_secs s env else 0.

(** Lines 121-125 on the dict read back from [result]. *)
Definition classify (d : Dict) : Dict :=
  if nonempty (errors d) && negb (nonempty (yelp_reviews d))
     && negb (nonempty (amazon_reviews d))
  then with_status Failed d
  else if nonempty (errors d) then with_status PartialSuccess d
  else d.

(** The dict of a cycle that started at time [t] and in which no
    unexpected condition was raised. *)
Definition cycle_dict (y a : string) (env : CycleEnv) (t : nat) : Dict :=
  classify
    (source_update Amazon a env
       (source_update Yelp y env
          (mkDict (Some t) [] [] Success [] None None))).

(** The calls of such a cycle. *)
Definition cycle_fetches (y a : string) (env : CycleEnv) (t : nat)
  : list Fetch :=
  source_fetches Yelp y t
  ++ source_fetches Amazon a (t + source_elapsed Yelp y env).

(** The dict built by the handler of the outer [try] at time [t]. *)
Definition failed_dict (e : string) (t : nat) : Dict :=
  mkDict (Some t) [] [] Failed ["General scraping error: " +:+ e] None None.

(** A dict as [scrape_reviews] builds it has no ['background_scraping']
    and no ['refresh_interval'] key. *)
Definition plain (d : Dict) : Prop :=
  background_scraping d = None /\ refresh_interval d = None.

(** The dict that a call of [scrape_reviews] returned. *)
Definition snapshot_of (p : Res nat * World) : option Dict :=
  match p with
  | (Val r, w') => heap w' !! r
  | (Exc _, _) => None
  end.

(** The outcomes of the sources that were requested, in the order of the
    calls. *)
Definition attempts (y a : string) (env : CycleEnv) : list Outcome :=
  (if truthy y then [env_yelp env] else [])
  ++ (if truthy a then [env_amazon env] else []).

(** C2 in the words of the specification, for one cycle with both sources
    requested: each scraper is called exactly once, Yelp and then Amazon,
    the cycle returns, and every failed fetch is an entry of ['errors']. *)
Definition isolation_claim (y a : string) (env : CycleEnv) (w : World)
  : Prop :=
  exists r w' d,
    scrape_reviews y a env w = (Val r, w') /\
    fetches w' = fetches w ++ [mkFetch Yelp y (now w);
                               mkFetch Amazon a (now w + env_yelp_secs env)] /\
    heap w' !! r = Some d /\
    errors d = (match env_yelp env with
                | Err msg => ["Yelp scraping failed: " +:+ msg]
                | Ok _ => []
                end
                ++ match env_amazon env with
                   | Err msg => ["Amazon scraping failed: " +:+ msg]
                   | Ok _ => []
                   end).

(** ** The four-way status (C1) *)

Definition is_ok (o : Outcome) : bool :=
  match o with Ok _ => true | Err _ => false end.

Definition is_err (o : Outcome) : bool :=
  match o with Ok _ => false | Err _ => true end.

Definition is_nonempty_ok (o : Outcome) : bool :=
  match o with Ok (_ :: _) => true | _ => false end.

(** The classification in the words of the specification. *)
Definition four_way_as_stated (st : Status) (os : list Outcome) : Prop :=
  (st = Success <-> forallb is_ok os = true) /\
  (st = PartialSuccess <->
     existsb is_err os = true /\ existsb is_nonempty_ok os = true) /\
  (st = Failed <->
     nonempty os = true /\ forallb is_err os = true /\
     existsb is_nonempty_ok os = false).

(** The classification that [scrape_reviews] implements: a cycle has
    failed when some source failed and there is no record at all, also
    when another source returned an empty list. *)
Definition four_way (st : Status) (os : list Outcome) : Prop :=
  (st = Success <-> forallb is_ok os = true) /\
  (st = PartialSuccess <->
     existsb is_err os = true /\ existsb is_nonempty_ok os = true) /\
  (st = Failed <->
     existsb is_err os = true /\ existsb is_nonempty_ok os = false).

(** C1 in the words of the specification, for one cycle. *)
Definition status_claim (y a : string) (env : CycleEnv) (w : World) : Prop :=
  exists d, snapshot_of (scrape_reviews y a env w) = Some d /\
            four_way_as_stated (status d) (attempts y a env).

(** The entries that the failed sources leave in ['errors']. *)
Definition failure_messages (env : CycleEnv) : list string :=
  match env_yelp env with
  | Err msg => ["Yelp scraping failed: " +:+ msg]
  | Ok _ => []
  end
  ++ match env_amazon env with
     | Err msg => ["Amazon scraping failed: " +:+ msg]
     | Ok _ => []
     end.

(** ** Timestamp and store (C6, C9) *)

(** C6 in the words of the specification, for one cycle: the timestamp is
    the time at which the cycle completed. *)
Definition timestamp_at_completion (y a : string) (env : CycleEnv) (w : World)
  : Prop :=
  exists r w' d,
    scrape_reviews y a env w = (Val r, w') /\
    heap w' !! r = Some d /\
    timestamp d = Some (now w').

(** C9 in the words of the specification, for one cycle: the cycle does
    not write the store. *)
Definition store_untouched (y a : string) (env : CycleEnv) (w : World) : Prop :=
  exists r w',
    scrape_reviews y a env w = (Val r, w') /\
    latest_data w' = latest_data w.

(** ** Threads and requests *)

(** The refresh interval of thread [tid] is above [TIMEOUT_MAX]. *)
Definition too_long (tid : nat) (w : World) : bool :=
  match threads w !! tid with
  | Some t => (TIMEOUT_MAX <? thr_interval t)%Z
  | None => false
  end.

(** The control skeleton of [background_scraper]: where a thread at [pc]
    is after one step, given the stop event, whether its cycle can
    complete and whether its interval is above [TIMEOUT_MAX]. *)
Definition next_pc (pc : PC) (stop : bool) (completes : bool)
    (overlong : bool) : PC :=
  match pc with
  | Fresh => AtLoopTop
  | AtLoopTop => if stop then Finished else InCycle
  | InCycle =>
      if completes
      then (if stop then Finished else if overlong then Finished else InWait)
      else InCycle
  | InWait => if stop then Finished else AtLoopTop
  | Finished => Finished
  end.

(** Whether the cycle of a thread that is fetching can complete. *)
Definition completes (env : option CycleEnv) : bool :=
  match env with Some _ => true | None => false end.

(** Where a thread is when [join] returns, the stop event being set. *)
Definition join_pc (pc : PC) (completes : bool) : PC :=
  next_pc (next_pc pc true completes false) true completes false.

(** Where a thread is once it has seen the stop event, if it was outside a
    cycle. *)
Definition seen (pc : PC) : PC := if outside_cycle pc then Finished else pc.

(** The join of a stop request is acknowledged when the running thread, if
    it is inside a cycle, completes that cycle before the timeout. *)
Definition acknowledged (in_time : option CycleEnv) (w : World) : Prop :=
  forall tid, scraping_thread w = Some tid ->
              thread_pc tid w = InCycle -> completes in_time = true.



(** Line 219: at least one identifier is given. *)
Definition valid (args : Args) : bool :=
  truthy (yelp_input_of args)
  || truthy (amazon_input_of args).

(** [scraping_thread and scraping_thread.is_alive()]. *)
Definition job_alive (w : World) : bool :=
  match scraping_thread w with
  | Some tid => is_alive tid w
  | None => false
  end.




(** A request that starts polling, two steps of the new thread, which is
    then inside its first cycle, and a second request whose join times out
    because that cycle is still fetching. *)
Definition supersede_with_timeout : list Event :=
  [EvScrape (mkArgs (Some "biz") None (Some 1%Z)) None
     (mkEnv (Ok ["r1"]) 1 (Ok []) 0 None);
   EvThread 0 (mkEnv (Ok []) 0 (Ok []) 0 None);
   EvThread 0 (mkEnv (Ok []) 0 (Ok []) 0 None);
   EvScrape (mkArgs (Some "biz") None (Some 1%Z)) None
     (mkEnv (Ok ["r2"]) 1 (Ok []) 0 None)].

(** After [supersede_with_timeout], a stop request: it ends the second
    thread, which has not entered a cycle yet, and leaves the first, which
    is still fetching. *)
Definition stop_after_supersede : list Event :=
  supersede_with_timeout ++ [EvStop None].


(** A request that starts polling and two steps of the new thread, which
    is then inside its first cycle. *)
Definition polling_then_in_cycle : list Event :=
  [EvScrape (mkArgs (Some "biz") None (Some 1%Z)) None
     (mkEnv (Ok ["r1"]) 1 (Ok []) 0 None);
   EvThread 0 (mkEnv (Ok []) 0 (Ok []) 0 None);
   EvThread 0 (mkEnv (Ok []) 0 (Ok []) 0 None)].

(** ** Further notions: stored dicts and thread arguments *)

(** The initial value of [latest_data] (lines 56-62). *)
Definition initial_dict : Dict := mkDict None [] [] NoData [] None None.

(** What lines 91-97, 121-125 and 136-142 make true of the dict of a
    cycle: it has a timestamp, its status is not ['no_data'], ['errors'] is
    empty exactly when the status is ['success'], a ['failed'] dict has no
    review and a ['partial_success'] dict has some. *)
Definition well_formed (d : Dict) : Prop :=
  is_Some (timestamp d) /\
  match status d with
  | NoData => False
  | Success => errors d = []
  | PartialSuccess =>
      errors d <> [] /\ (yelp_reviews d <> [] \/ amazon_reviews d <> [])
  | Failed => errors d <> [] /\ yelp_reviews d = [] /\ amazon_reviews d = []
  end.

(** The dict that [latest_data] refers to exists and is the initial dict
    or the dict of a cycle. *)
Definition store_ok (w : World) : Prop :=
  exists d, heap w !! latest_data w = Some d /\
            (d = initial_dict \/ well_formed d).

(** Two states of one thread object with the same [args]. *)
Definition same_args (t t' : Thread) : Prop :=
  thr_yelp t' = thr_yelp t /\
  thr_amazon t' = thr_amazon t /\
  thr_interval t' = thr_interval t.

(** The reviews that a source contributes to the dict of a cycle. *)
Definition contributed (input : string) (o : Outcome) : list ReviewRecord :=
  if truthy input then
    match o with Ok records => records | Err _ => [] end
  else [].

(** * Properties *)

Arguments count_str : simpl never.
Arguments String.append : simpl never.
Arguments pretty : simpl never.

(** ** The heap: the dict allocated last *)

Lemma alter_last {A} (f : A -> A) (h : list A) (d : A) :
  alter f (length h) (h ++ [d]) = h ++ [f d].
Proof.
  induction h as [|x h IH]; simpl; [reflexivity|].
  f_equal. exact IH.
Qed.

Lemma lookup_total_last `{Inhabited A} (h : list A) (d : A) :
  (h ++ [d]) !!! length h = d.
Proof.
  induction h as [|x h IH]; simpl; [reflexivity|]. exact IH.
Qed.

(** ** One cycle *)

Lemma same_jobs_refl w : same_jobs w w.
Proof. repeat split. Qed.

Lemma same_jobs_trans w1 w2 w3 :
  same_jobs w1 w2 -> same_jobs w2 w3 -> same_jobs w1 w3.
Proof.
  intros (A1 & B1 & C1) (A2 & B2 & C2). repeat split; congruence.
Qed.

Ltac exec :=
  unfold scrape_source, get_reviews, unexpected_at, try_except, bind, ret,
    raise, modify, utcnow, new_dict, read_dict, update_dict, logger_info,
    logger_error, get_world, set_latest_data, set_log, set_heap, set_now,
    set_fetches;
  simpl;
  rewrite ?alter_last, ?lookup_total_last.

(** The block of one source, run on the dict allocated last: what it
    leaves behind, whatever the environment does. *)
Lemma scrape_source_frame s input env w h d :
  heap w = h ++ [d] ->
  exists res w' d',
    scrape_source s input (length h) env w = (res, w') /\
    same_jobs w w' /\
    latest_data w' = latest_data w /\
    heap w' = h ++ [d'] /\
    now w' = now w + source_elapsed s input env /\
    fetches w' = fetches w ++ source_fetches s input (now w) /\
    match res with
    | Val _ => d' = source_update s input env d
    | Exc _ => env_unexpected env <> None
    end.
Proof.
  destruct w as [n hp l st sf ts fs lg]; simpl. intros ->.
  unfold source_update, source_fetches, source_elapsed, same_jobs.
  destruct (truthy input) eqn:Hin; [|unfold scrape_source; rewrite Hin].
  2:{ eexists _, _, _; split; [reflexivity|]; simpl.
      rewrite app_nil_r, Nat.add_0_r. repeat split; reflexivity. }
  destruct env as [oy sy oa sa u]; simpl.
  destruct s; simpl.
  - destruct oy as [ry|ey]; exec; rewrite Hin; simpl; exec.
    + eexists _, _, _; split; [reflexivity|]; simpl. repeat split; reflexivity.
    + destruct u as [[[] e]|]; simpl; exec;
        (eexists _, _, _; split; [reflexivity|]; simpl;
         repeat split; try reflexivity; try discriminate).
  - destruct oa as [ra|ea]; exec; rewrite Hin; simpl; exec.
    + eexists _, _, _; split; [reflexivity|]; simpl. repeat split; reflexivity.
    + destruct u as [[[] e]|]; simpl; exec;
        (eexists _, _, _; split; [reflexivity|]; simpl;
         repeat split; try reflexivity; try discriminate).
Qed.

Lemma unexpected_at_cases p env w :
  unexpected_at p env w = (Val tt, w) \/
  exists e, unexpected_at p env w = (Exc e, w) /\ env_unexpected env <> None.
Proof.
  unfold unexpected_at. destruct (env_unexpected env) as [[q e]|].
  - destruct (decide (p = q)); [right|left; reflexivity].
    exists e. split; [reflexivity|discriminate].
  - left. reflexivity.
Qed.

Lemma scrape_reviews_body_frame y a env w :
  exists res w',
    scrape_reviews_body y a env w = (res, w') /\
    same_jobs w w' /\
    (exists ds, heap w' = heap w ++ ds) /\
    match res with
    | Val r =>
        r = length (heap w) /\ latest_data w' = r /\
        heap w' = heap w ++ [cycle_dict y a env (now w)] /\
        fetches w' = fetches w ++ cycle_fetches y a env (now w) /\
        now w' = now w + source_elapsed Yelp y env + source_elapsed Amazon a env
    | Exc _ => env_unexpected env <> None /\ latest_data w' = latest_data w
    end.
Proof.
  unfold scrape_reviews_body.
  unfold bind at 1.
  destruct (unexpected_at_cases AtStart env w) as [-> | (e & -> & Hne)].
  2:{ eexists _, _; split; [reflexivity|].
      split; [apply same_jobs_refl|]. split; [exists []; symmetry; apply app_nil_r|].
      split; [exact Hne|reflexivity]. }
  unfold bind at 1. unfold logger_info at 1, modify at 1.
  unfold bind at 1.
  set (w0 := set_log _ w).
  destruct (unexpected_at_cases AtInit env w0) as [-> | (e & -> & Hne)].
  2:{ eexists _, _; split; [reflexivity|].
      split; [repeat split|]. split; [exists []; symmetry; apply app_nil_r|].
      split; [exact Hne|reflexivity]. }
  unfold bind at 1, utcnow at 1. unfold bind at 1, new_dict at 1.
  set (w1 := set_heap _ w0).
  assert (H1 : heap w1 = heap w ++ [mkDict (Some (now w)) [] [] Success [] None None])
    by reflexivity.
  change (length (heap w0)) with (length (heap w)).
  unfold bind at 1.
  destruct (scrape_source_frame Yelp y env w1 _ _ H1)
    as (res1 & w2 & d1 & -> & J1 & L1 & H2 & N1 & F1 & R1).
  destruct res1 as [[]|e1].
  2:{ eexists _, _; split; [reflexivity|].
      split; [exact J1|]. split; [eexists; exact H2|].
      split; [exact R1|exact L1]. }
  unfold bind at 1.
  destruct (scrape_source_frame Amazon a env w2 _ _ H2)
    as (res2 & w3 & d2 & -> & J2 & L2 & H3 & N2 & F2 & R2).
  destruct res2 as [[]|e2].
  2:{ eexists _, _; split; [reflexivity|].
      split; [eapply same_jobs_trans; [exact J1|exact J2]|].
      split; [eexists; exact H3|].
      split; [exact R2|]. rewrite L2. exact L1. }
  unfold bind at 1, read_dict at 1. rewrite H3, lookup_total_last.
  assert (E : exists w4,
             (if nonempty (errors d2) && negb (nonempty (yelp_reviews d2))
                 && negb (nonempty (amazon_reviews d2))
              then update_dict (length (heap w)) (with_status Failed)
              else if nonempty (errors d2)
                   then update_dict (length (heap w)) (with_status PartialSuccess)
                   else ret tt) w3 = (Val tt, w4) /\
             heap w4 = heap w ++ [classify d2] /\ same_jobs w3 w4 /\
             fetches w4 = fetches w3 /\ now w4 = now w3).
  { unfold classify.
    destruct (nonempty (errors d2) && negb (nonempty (yelp_reviews d2))
              && negb (nonempty (amazon_reviews d2)));
      [|destruct (nonempty (errors d2))];
      eexists; (split; [reflexivity|]); simpl; rewrite H3, ?alter_last;
      repeat split. }
  destruct E as (w4 & E4 & H4 & J4 & F4 & N4).
  unfold bind at 1. rewrite E4.
  unfold bind, modify, ret. simpl.
  eexists _, _; split; [reflexivity|]. simpl.
  split.
  { destruct J1 as (A1 & B1 & C1), J2 as (A2 & B2 & C2), J4 as (A4 & B4 & C4).
    repeat split; simpl.
    - rewrite A4, A2, A1. reflexivity.
    - rewrite B4, B2, B1. reflexivity.
    - rewrite C4, C2, C1. reflexivity. }
  split; [eexists; exact H4|].
  split; [reflexivity|]. split; [reflexivity|].
  split.
  { rewrite H4. unfold cycle_dict. rewrite R2, R1. reflexivity. }
  split.
  - rewrite F4, F2, F1, N1. unfold cycle_fetches. simpl. rewrite <- app_assoc. reflexivity.
  - rewrite N4, N2, N1. reflexivity.
Qed.

Lemma scrape_reviews_handler_run e w :
  exists w',
    scrape_reviews_handler e w = (Val (length (heap w)), w') /\
    same_jobs w w' /\
    heap w' = heap w ++ [failed_dict e (now w)] /\
    latest_data w' = length (heap w) /\
    fetches w' = fetches w /\ now w' = now w.
Proof.
  eexists. split; [reflexivity|]. simpl. repeat split.
Qed.

(** A cycle in which no unexpected condition is raised. *)
Lemma scrape_reviews_clean y a env w :
  env_unexpected env = None ->
  exists w',
    scrape_reviews y a env w = (Val (length (heap w)), w') /\
    same_jobs w w' /\
    heap w' = heap w ++ [cycle_dict y a env (now w)] /\
    latest_data w' = length (heap w) /\
    fetches w' = fetches w ++ cycle_fetches y a env (now w) /\
    now w' = now w + source_elapsed Yelp y env + source_elapsed Amazon a env.
Proof.
  intros Hu. unfold scrape_reviews, try_except.
  destruct (scrape_reviews_body_frame y a env w) as (res & w' & -> & J & _ & R).
  destruct res as [r|e].
  - destruct R as (-> & L & H & F & N).
    exists w'. repeat split; try assumption; apply J.
  - destruct R as [Hne _]. contradiction.
Qed.

(** A cycle in which the body of the outer [try] raises. *)
Lemma scrape_reviews_unexpected y a env w e w1 :
  scrape_reviews_body y a env w = (Exc e, w1) ->
  exists w',
    scrape_reviews y a env w = (Val (length (heap w1)), w') /\
    heap w' = heap w1 ++ [failed_dict e (now w1)] /\
    latest_data w' = length (heap w1).
Proof.
  intros Hb. unfold scrape_reviews, try_except. rewrite Hb.
  destruct (scrape_reviews_handler_run e w1) as (w' & -> & _ & H & L & _).
  exists w'. repeat split; assumption.
Qed.

Lemma cycle_dict_plain y a env t : plain (cycle_dict y a env t).
Proof.
  unfold cycle_dict, classify, source_update, plain.
  destruct (truthy y), (truthy a), (source_outcome Yelp env),
    (source_outcome Amazon env); simpl;
    repeat match goal with |- context [if ?b then _ else _] => destruct b end;
    simpl; split; reflexivity.
Qed.

(** Any cycle: the function returns normally, the dict it returns is a
    new object, allocated last, and is the one [latest_data] now refers
    to; the dicts that existed before are as they were, and the job
    control is untouched. *)
Lemma scrape_reviews_returns y a env w :
  exists r w' ds d,
    scrape_reviews y a env w = (Val r, w') /\
    same_jobs w w' /\
    heap w' = (heap w ++ ds) ++ [d] /\
    r = length (heap w ++ ds) /\
    latest_data w' = r /\
    plain d.
Proof.
  unfold scrape_reviews, try_except.
  destruct (scrape_reviews_body_frame y a env w) as (res & w1 & -> & J & (ds & H) & R).
  destruct res as [r|e].
  - destruct R as (-> & L & Hd & _).
    exists (length (heap w)), w1, [], (cycle_dict y a env (now w)).
    rewrite app_nil_r.
    repeat split; try assumption; try apply J; apply cycle_dict_plain.
  - destruct (scrape_reviews_handler_run e w1) as (w' & -> & J' & H' & L' & _).
    exists (length (heap w1)), w', ds, (failed_dict e (now w1)).
    split; [reflexivity|]. split; [eapply same_jobs_trans; eassumption|].
    rewrite <- H. repeat split; assumption.
Qed.

Lemma lookup_last {A} (h : list A) (d : A) : (h ++ [d]) !! length h = Some d.
Proof.
  induction h as [|x h IH]; simpl; [reflexivity|]. exact IH.
Qed.

Lemma snapshot_of_clean y a env w :
  env_unexpected env = None ->
  snapshot_of (scrape_reviews y a env w) = Some (cycle_dict y a env (now w)).
Proof.
  intros Hu.
  destruct (scrape_reviews_clean y a env w Hu) as (w' & -> & _ & H & _).
  simpl. rewrite H. apply lookup_last.
Qed.

(** ** The four-way status *)

(** C1, as stated, fails: Yelp raises and Amazon returns an empty list.
    The status is ['failed'] although one requested source produced [Ok]. *)
Lemma status_claim_fails :
  ~ status_claim "y" "a" (mkEnv (Err "timeout") 0 (Ok []) 0 None) initial_world.
Proof.
  intros (d & Hd & _ & _ & Hf). vm_compute in Hd. injection Hd as <-.
  simpl in Hf. destruct Hf as [Hf _].
  destruct (Hf eq_refl) as (_ & Habs & _). discriminate.
Qed.

(** C1 (amended): for every cycle with at least one source requested and
    no unexpected condition, the status of the returned dict is
    ['success'] iff every requested source returned, ['partial_success']
    iff some requested source raised and some requested source returned a
    non-empty list, and ['failed'] iff some requested source raised and no
    source returned any record. *)
Theorem status_four_way y a env w :
  truthy y || truthy a = true ->
  env_unexpected env = None ->
  exists d, snapshot_of (scrape_reviews y a env w) = Some d /\
            four_way (status d) (attempts y a env).
Proof.
  intros _ Hu. eexists. split; [apply snapshot_of_clean; exact Hu|].
  unfold cycle_dict, classify, source_update, attempts, four_way.
  destruct env as [oy sy oa sa u]; simpl.
  destruct (truthy y), (truthy a), oy as [[|r1 ry]|ey], oa as [[|r2 ra]|ea];
    simpl; repeat split; intros; try discriminate; try tauto;
    try (destruct H; discriminate).
Qed.

Lemma status_four_way_witness :
  exists d,
    snapshot_of (scrape_reviews "y" "a"
                   (mkEnv (Ok ["r1"; "r2"; "r3"]) 2 (Err "blocked") 1 None)
                   initial_world) = Some d /\
    four_way (status d)
      (attempts "y" "a" (mkEnv (Ok ["r1"; "r2"; "r3"]) 2 (Err "blocked") 1 None)).
Proof.
  apply (status_four_way "y" "a"
           (mkEnv (Ok ["r1"; "r2"; "r3"]) 2 (Err "blocked") 1 None)
           initial_world); reflexivity.
Defined.

(** ** Isolation of the two sources *)

Lemma errors_classify d : errors (classify d) = errors d.
Proof.
  unfold classify.
  repeat match goal with |- context [if ?b then _ else _] => destruct b end;
    reflexivity.
Qed.

(** C2, as stated, fails: Yelp's fetch raises and a statement of its
    [except] block (lines 106-107) raises in turn. Nothing between line 105
    and the outer handler catches that exception, so Amazon's scraper is
    never called, and ['errors'] holds the single general entry. *)
Lemma isolation_claim_fails :
  ~ isolation_claim "biz" "B08N5WRWNW"
      (mkEnv (Err "HTTP 503") 2 (Ok ["r1"]) 1 (Some (InYelpExcept, "bad str")))
      initial_world.
Proof.
  intros (r & w' & d & E & F & _).
  vm_compute in E. injection E as <- <-. vm_compute in F. discriminate F.
Qed.

(** C2 (amended): in a cycle with both sources requested in which no
    statement outside the per-source [try] bodies raises, [get_reviews] is
    called exactly once on each scraper, Yelp first and then Amazon,
    whatever either call does; the function returns normally, and
    ['errors'] holds one entry per call that raised, in the order of the
    calls. *)
Theorem each_source_attempted_once y a env w :
  truthy y = true ->
  truthy a = true ->
  env_unexpected env = None ->
  exists r w' d,
    scrape_reviews y a env w = (Val r, w') /\
    fetches w' = fetches w ++ [mkFetch Yelp y (now w);
                               mkFetch Amazon a (now w + env_yelp_secs env)] /\
    heap w' !! r = Some d /\
    errors d = failure_messages env.
Proof.
  intros Hy Ha Hu.
  destruct (scrape_reviews_clean y a env w Hu) as (w' & E & _ & H & _ & F & _).
  exists (length (heap w)), w', (cycle_dict y a env (now w)).
  split; [exact E|]. split.
  - rewrite F. unfold cycle_fetches, source_fetches, source_elapsed.
    rewrite Hy, Ha. reflexivity.
  - split; [rewrite H; apply lookup_last|].
    unfold cycle_dict. rewrite errors_classify.
    unfold source_update, failure_messages. rewrite Hy, Ha. simpl.
    destruct (env_yelp env), (env_amazon env); reflexivity.
Qed.

Lemma each_source_attempted_once_witness :
  exists r w' d,
    scrape_reviews "biz" "B08N5WRWNW"
      (mkEnv (Err "HTTP 503") 4 (Ok ["r1"]) 2 None) initial_world = (Val r, w') /\
    fetches w' = fetches initial_world
                 ++ [mkFetch Yelp "biz" (now initial_world);
                     mkFetch Amazon "B08N5WRWNW" (now initial_world + 4)] /\
    heap w' !! r = Some d /\
    errors d = failure_messages (mkEnv (Err "HTTP 503") 4 (Ok ["r1"]) 2 None).
Proof.
  apply (each_source_attempted_once "biz" "B08N5WRWNW"
           (mkEnv (Err "HTTP 503") 4 (Ok ["r1"]) 2 None) initial_world);
    reflexivity.
Defined.

(** ** The timestamp *)

(** C6, as stated, fails: a Yelp fetch that takes three seconds. The
    timestamp is the reading taken before the fetch. *)
Lemma timestamp_at_completion_fails :
  ~ timestamp_at_completion "y" EmptyString (mkEnv (Ok ["r"]) 3 (Ok []) 0 None)
      initial_world.
Proof.
  intros (r & w' & d & E & Hd & Ht). vm_compute in E.
  injection E as <- <-. vm_compute in Hd. injection Hd as <-.
  vm_compute in Ht. discriminate.
Qed.

(** C6 (amended): in every cycle in which no unexpected condition is
    raised, the timestamp of the returned dict is the clock reading taken
    when [result] is initialised: no fetch of the cycle has started before
    it, and the cycle completes at or after it. *)
Theorem timestamp_at_initialisation y a env w :
  env_unexpected env = None ->
  exists r w' d fs,
    scrape_reviews y a env w = (Val r, w') /\
    heap w' !! r = Some d /\
    timestamp d = Some (now w) /\
    fetches w' = fetches w ++ fs /\
    Forall (fun f => now w <= fetch_started f) fs /\
    now w' = now w + source_elapsed Yelp y env + source_elapsed Amazon a env.
Proof.
  intros Hu.
  destruct (scrape_reviews_clean y a env w Hu) as (w' & E & _ & H & _ & F & N).
  exists (length (heap w)), w', (cycle_dict y a env (now w)),
    (cycle_fetches y a env (now w)).
  split; [exact E|]. split; [rewrite H; apply lookup_last|].
  split.
  { unfold cycle_dict, classify, source_update.
    destruct (truthy y), (truthy a), (source_outcome Yelp env),
      (source_outcome Amazon env); simpl;
      repeat match goal with |- context [if ?b then _ else _] => destruct b end;
      reflexivity. }
  split; [exact F|]. split; [|exact N].
  unfold cycle_fetches, source_fetches.
  destruct (truthy y), (truthy a); simpl; repeat constructor; simpl; lia.
Qed.

Lemma timestamp_at_initialisation_witness :
  exists r w' d fs,
    scrape_reviews "y" EmptyString (mkEnv (Ok ["r"]) 3 (Ok []) 0 None) initial_world
      = (Val r, w') /\
    heap w' !! r = Some d /\
    timestamp d = Some (now initial_world) /\
    fetches w' = fetches initial_world ++ fs /\
    Forall (fun f => now initial_world <= fetch_started f) fs /\
    now w' = now initial_world
             + source_elapsed Yelp "y" (mkEnv (Ok ["r"]) 3 (Ok []) 0 None)
             + source_elapsed Amazon EmptyString (mkEnv (Ok ["r"]) 3 (Ok []) 0 None).
Proof.
  apply (timestamp_at_initialisation "y" EmptyString
           (mkEnv (Ok ["r"]) 3 (Ok []) 0 None) initial_world).
  reflexivity.
Defined.

(** ** What a cycle touches *)

(** C9, as stated, fails: after a cycle on the initial state
    [latest_data] refers to the dict of that cycle. *)
Lemma store_untouched_fails :
  ~ store_untouched "y" EmptyString (mkEnv (Ok []) 0 (Ok []) 0 None) initial_world.
Proof.
  intros (r & w' & E & L). vm_compute in E. injection E as <- <-.
  vm_compute in L. discriminate.
Qed.

(** C9 (amended): [scrape_reviews] itself rebinds [latest_data] to the
    dict it returns, a new object. Apart from that (and the calls to the
    scrapers, the logger and the clock) it touches no shared state: every
    dict that existed before, the one [latest_data] referred to included,
    is unchanged, and so are [scraping_thread], [stop_scraping] and the
    threads. *)
Theorem cycle_writes_only_the_store y a env w :
  exists r w',
    scrape_reviews y a env w = (Val r, w') /\
    latest_data w' = r /\
    length (heap w) <= r < length (heap w') /\
    (forall i d, heap w !! i = Some d -> heap w' !! i = Some d) /\
    scraping_thread w' = scraping_thread w /\
    stop_scraping w' = stop_scraping w /\
    threads w' = threads w.
Proof.
  destruct (scrape_reviews_returns y a env w)
    as (r & w' & ds & d & E & (J1 & J2 & J3) & H & -> & L & _).
  exists (length (heap w ++ ds)), w'.
  split; [exact E|]. split; [exact L|]. split.
  { rewrite H, !length_app. simpl. lia. }
  split; [|repeat split; assumption].
  intros i d0 Hi. rewrite H, <- app_assoc.
  apply lookup_app_l_Some. exact Hi.
Qed.

(** ** The background thread *)

Lemma alter_with_pc_same (ts : list Thread) tid t :
  ts !! tid = Some t -> alter (with_pc (thr_pc t)) tid ts = ts.
Proof.
  revert tid. induction ts as [|x ts IH]; intros [|tid] H; simpl in *;
    try discriminate.
  - injection H as ->. destruct t; reflexivity.
  - f_equal. apply IH. exact H.
Qed.

Lemma alter_out_of_range {A} (f : A -> A) (ts : list A) tid :
  ts !! tid = None -> alter f tid ts = ts.
Proof.
  revert tid. induction ts as [|x ts IH]; intros [|tid] H; simpl in *;
    try discriminate; try reflexivity.
  f_equal. apply IH. exact H.
Qed.

(** One step of a thread: it changes nothing of the job control but its
    own place, which moves as [next_pc] says; dicts are only added. *)
Lemma thread_step_spec tid env w :
  scraping_thread (thread_step tid env w) = scraping_thread w /\
  stop_scraping (thread_step tid env w) = stop_scraping w /\
  threads (thread_step tid env w)
  = alter (with_pc (next_pc (thread_pc tid w) (stop_scraping w) (completes env)
                              (too_long tid w)))
          tid (threads w) /\
  (forall i d, heap w !! i = Some d -> heap (thread_step tid env w) !! i = Some d).
Proof.
  remember (thread_step tid env w) as w' eqn:E.
  unfold thread_step, background_scraper_step in E.
  unfold bind at 1, get_world at 1 in E.
  unfold thread_pc, too_long.
  destruct (threads w !! tid) as [t|] eqn:Ht.
  2:{ simpl in E. subst w'. rewrite (alter_out_of_range _ _ _ Ht).
      repeat split. auto. }
  destruct (thr_pc t) eqn:Hpc; simpl.
  - subst w'. repeat split; auto.
  - revert E. destruct (stop_scraping w) eqn:Hs; intros ->; simpl; repeat split; auto.
  - destruct env as [env|]; simpl.
    + unfold bind at 1 in E.
      destruct (scrape_reviews_returns (thr_yelp t) (thr_amazon t) env w)
        as (r & w1 & ds & d & Er & (J1 & J2 & J3) & H & _ & _ & _).
      rewrite Er in E.
      unfold bind at 1, get_world at 1 in E. rewrite J2 in E.
      revert E. destruct (stop_scraping w) eqn:Hs;
        [|destruct (TIMEOUT_MAX <? thr_interval t)%Z]; intros ->; simpl;
        rewrite J1, ?J2, J3; (repeat split; [auto..|]);
        intros i d0 Hi; rewrite H, <- app_assoc;
        apply lookup_app_l_Some; exact Hi.
    + simpl in E. subst w'.
      rewrite <- Hpc, (alter_with_pc_same _ _ _ Ht). repeat split. auto.
  - revert E. destruct (stop_scraping w) eqn:Hs; intros ->; simpl; repeat split; auto.
  - simpl in E. subst w'.
    rewrite <- Hpc, (alter_with_pc_same _ _ _ Ht). repeat split. auto.
Qed.

Lemma thread_pc_alter tid p j ts w :
  threads w = alter (with_pc p) tid ts ->
  thread_pc j w
  = match ts !! j with
    | Some t => if decide (j = tid) then p else thr_pc t
    | None => Finished
    end.
Proof.
  intros H. unfold thread_pc. rewrite H.
  destruct (decide (j = tid)) as [->|Hne].
  - rewrite list_lookup_alter_eq. destruct (ts !! tid); reflexivity.
  - rewrite list_lookup_alter_ne by congruence. reflexivity.
Qed.

(** Where every thread is after a step of thread [tid]. *)
Lemma thread_pc_step tid env w j :
  thread_pc j (thread_step tid env w)
  = if decide (j = tid)
    then next_pc (thread_pc tid w) (stop_scraping w) (completes env)
           (too_long tid w)
    else thread_pc j w.
Proof.
  destruct (thread_step_spec tid env w) as (_ & _ & H & _).
  rewrite (thread_pc_alter _ _ _ _ _ H). unfold thread_pc, too_long.
  destruct (decide (j = tid)) as [->|Hne].
  - destruct (threads w !! tid); reflexivity.
  - destruct (threads w !! j); reflexivity.
Qed.


(** ** Stopping the running thread *)

Lemma join_pc_finished pc c :
  (pc = InCycle -> c = true) -> join_pc pc c = Finished.
Proof.
  destruct pc, c; intros H; try reflexivity. discriminate (H eq_refl).
Qed.

Lemma thread_pc_set_stop j b w :
  thread_pc j (set_stop_scraping b w) = thread_pc j w.
Proof. reflexivity. Qed.

Lemma next_pc_event_set pc c overlong :
  next_pc pc true c overlong = next_pc pc true c false.
Proof. destruct pc, c; reflexivity. Qed.

(** What the other threads' seeing the event changes: the place of the
    threads that were outside a cycle, and the log. *)
Lemma threads_outside_cycle_return_spec w :
  scraping_thread (snd (threads_outside_cycle_return w)) = scraping_thread w /\
  stop_scraping (snd (threads_outside_cycle_return w)) = stop_scraping w /\
  heap (snd (threads_outside_cycle_return w)) = heap w /\
  latest_data (snd (threads_outside_cycle_return w)) = latest_data w /\
  fetches (snd (threads_outside_cycle_return w)) = fetches w /\
  now (snd (threads_outside_cycle_return w)) = now w /\
  threads (snd (threads_outside_cycle_return w))
  = return_outside_cycle <$> threads w.
Proof. repeat split. Qed.

Lemma thread_pc_seen j w :
  thread_pc j (snd (threads_outside_cycle_return w)) = seen (thread_pc j w).
Proof.
  unfold thread_pc. simpl. rewrite list_lookup_fmap.
  destruct (threads w !! j) as [t|]; [|reflexivity]. simpl.
  unfold return_outside_cycle, seen.
  destruct (outside_cycle (thr_pc t)); reflexivity.
Qed.

(** The state that a join leaves, written out. *)
Lemma set_join_clear_run tid in_time w :
  set_join_clear tid in_time w
  = (Val tt,
     set_stop_scraping false
       (snd (threads_outside_cycle_return
               (thread_step tid in_time
                  (thread_step tid in_time (set_stop_scraping true w)))))).
Proof. reflexivity. Qed.

Lemma set_join_clear_spec tid in_time w :
  exists w',
    set_join_clear tid in_time w = (Val tt, w') /\
    scraping_thread w' = scraping_thread w /\
    stop_scraping w' = false /\
    length (threads w') = length (threads w) /\
    (forall j, thread_pc j w'
               = seen (if decide (j = tid)
                       then join_pc (thread_pc tid w) (completes in_time)
                       else thread_pc j w)) /\
    (forall i d, heap w !! i = Some d -> heap w' !! i = Some d).
Proof.
  rewrite set_join_clear_run. eexists. split; [reflexivity|].
  assert (P0 : forall j, thread_pc j (set_stop_scraping true w) = thread_pc j w)
    by reflexivity.
  assert (S0 : stop_scraping (set_stop_scraping true w) = true) by reflexivity.
  assert (T0 : scraping_thread (set_stop_scraping true w) = scraping_thread w)
    by reflexivity.
  assert (L0 : threads (set_stop_scraping true w) = threads w) by reflexivity.
  assert (H0 : heap (set_stop_scraping true w) = heap w) by reflexivity.
  generalize dependent (set_stop_scraping true w). intros w0 P0 S0 T0 L0 H0.
  destruct (thread_step_spec tid in_time w0) as (A1 & B1 & C1 & D1).
  assert (P1 := thread_pc_step tid in_time w0).
  generalize dependent (thread_step tid in_time w0). intros w1 A1 B1 C1 D1 P1.
  destruct (thread_step_spec tid in_time w1) as (A2 & B2 & C2 & D2).
  assert (P2 := thread_pc_step tid in_time w1).
  generalize dependent (thread_step tid in_time w1). intros w2 A2 B2 C2 D2 P2.
  destruct (threads_outside_cycle_return_spec w2) as (A3 & B3 & H3 & _ & _ & _ & C3).
  assert (P3 := fun j => thread_pc_seen j w2).
  generalize dependent (snd (threads_outside_cycle_return w2)).
  intros w3 A3 B3 H3 C3 P3.
  change (scraping_thread w3 = scraping_thread w /\
          false = false /\
          length (threads w3) = length (threads w) /\
          (forall j, thread_pc j w3
                     = seen (if decide (j = tid)
                             then join_pc (thread_pc tid w) (completes in_time)
                             else thread_pc j w)) /\
          (forall i d, heap w !! i = Some d -> heap w3 !! i = Some d)).
  split; [congruence|]. split; [reflexivity|].
  split; [rewrite C3, length_fmap, C2, length_alter, C1, length_alter, L0;
          reflexivity|].
  split.
  - intros j. rewrite P3, P2, !P1, B1, S0, !P0. unfold join_pc.
    rewrite !(next_pc_event_set _ _ (too_long _ _)).
    destruct (decide (j = tid)) as [->|Hne]; [|reflexivity].
    destruct (decide (tid = tid)); [reflexivity|congruence].
  - intros i d Hi. rewrite H3. apply D2, D1. rewrite H0. exact Hi.
Qed.

Lemma seen_finished pc : pc = Finished -> seen pc = Finished.
Proof. intros ->. reflexivity. Qed.

Lemma is_alive_true j w : is_alive j w = true <-> thread_pc j w <> Finished.
Proof. unfold is_alive. apply bool_decide_eq_true. Qed.

Lemma is_alive_false j w : is_alive j w = false <-> thread_pc j w = Finished.
Proof.
  unfold is_alive. rewrite bool_decide_eq_false.
  destruct (decide (thread_pc j w = Finished)); tauto.
Qed.

(** Lines 225-229 in general: the global and the number of threads are
    kept, a thread that has returned stays so, and no existing dict is
    changed. *)
Lemma stop_existing_frame in_time w :
  exists w1,
    stop_existing in_time w = (Val tt, w1) /\
    scraping_thread w1 = scraping_thread w /\
    length (threads w1) = length (threads w) /\
    (stop_scraping w = false -> stop_scraping w1 = false) /\
    (forall j, thread_pc j w = Finished -> thread_pc j w1 = Finished) /\
    (forall j, scraping_thread w <> Some j ->
               thread_pc j w1 = thread_pc j w \/ thread_pc j w1 = Finished) /\
    (forall i d, heap w !! i = Some d -> heap w1 !! i = Some d).
Proof.
  unfold stop_existing. unfold bind at 1, get_world at 1.
  destruct (scraping_thread w) as [tid|] eqn:Hst.
  2:{ exists w. repeat split; auto. }
  destruct (is_alive tid w) eqn:Hal.
  2:{ exists w. repeat split; auto. }
  destruct (set_join_clear_spec tid in_time w) as (w1 & E & A & B & C & D & F).
  exists w1. split; [exact E|]. split; [congruence|]. split; [exact C|].
  split; [auto|]. split; [|split; [|exact F]].
  - intros j Hj. rewrite D. apply seen_finished.
    destruct (decide (j = tid)) as [->|]; [|exact Hj].
    rewrite Hj. reflexivity.
  - intros j Hj. rewrite D. destruct (decide (j = tid)) as [->|]; [congruence|].
    unfold seen. destruct (outside_cycle (thread_pc j w)); auto.
Qed.


(** ** The scrape request *)


(** Lines 231-245 without a positive interval: the cycle and nothing
    else. *)
Lemma scrape_and_start_one_shot y a ri env w :
  interval_requested ri = false ->
  exists r w' ds d,
    scrape_reviews y a env w = (Val r, w') /\
    scrape_and_start y a ri env w = (Val (Formatted d, 200), w') /\
    heap w' = (heap w ++ ds) ++ [d] /\
    r = length (heap w ++ ds) /\
    latest_data w' = r /\
    plain d /\
    same_jobs w w'.
Proof.
  intros Hri.
  destruct (scrape_reviews_returns y a env w)
    as (r & w' & ds & d & E & J & H & -> & L & P).
  exists (length (heap w ++ ds)), w', ds, d.
  split; [exact E|].
  split; [|split; [exact H|]; split; [reflexivity|]; split; [exact L|];
           split; [exact P|exact J]].
  unfold scrape_and_start. unfold bind at 1. rewrite E.
  assert (R : read_dict (length (heap w ++ ds)) w' = (Val d, w')).
  { unfold read_dict. rewrite H, lookup_total_last. reflexivity. }
  destruct ri as [z|]; [rewrite Hri|]; unfold bind, ret; rewrite R; reflexivity.
Qed.

(** Lines 231-245 with a positive interval: the cycle, then a new thread,
    to which [scraping_thread] is rebound, and the two keys added to the
    dict of the cycle, which is the dict [latest_data] refers to. *)
Lemma scrape_and_start_polling y a z env w :
  interval_requested (Some z) = true ->
  exists r w' ds d w'',
    scrape_reviews y a env w = (Val r, w') /\
    heap w' = (heap w ++ ds) ++ [d] /\
    r = length (heap w ++ ds) /\
    latest_data w' = r /\
    plain d /\
    scrape_and_start y a (Some z) env w
    = (Val (Formatted (with_refresh_interval z (with_background_scraping true d)),
            200), w'') /\
    heap w'' = (heap w ++ ds)
               ++ [with_refresh_interval z (with_background_scraping true d)] /\
    latest_data w'' = r /\
    threads w'' = threads w ++ [mkThread y a z Fresh] /\
    scraping_thread w'' = Some (length (threads w)) /\
    stop_scraping w'' = stop_scraping w.
Proof.
  intros Hri.
  destruct (scrape_reviews_returns y a env w)
    as (r & w' & ds & d & E & (J1 & J2 & J3) & H & -> & L & P).
  exists (length (heap w ++ ds)), w', ds, d.
  eexists. split; [exact E|]. split; [exact H|]. split; [reflexivity|].
  split; [exact L|]. split; [exact P|].
  unfold scrape_and_start. unfold bind at 1. rewrite E, Hri.
  unfold bind, start_thread, modify, update_dict, read_dict, ret. simpl.
  rewrite H, !alter_last, lookup_total_last.
  split; [reflexivity|]. simpl. rewrite J2, J3.
  repeat split; try reflexivity. exact L.
Qed.

Lemma scrape_and_start_returns y a ri env w :
  exists resp w', scrape_and_start y a ri env w = (Val resp, w').
Proof.
  destruct (interval_requested ri) eqn:Hri.
  - destruct ri as [z|]; [|discriminate].
    destruct (scrape_and_start_polling y a z env w Hri)
      as (? & ? & ? & ? & ? & _ & _ & _ & _ & _ & E & _). eauto.
  - destruct (scrape_and_start_one_shot y a ri env w Hri)
      as (? & ? & ? & ? & _ & E & _). eauto.
Qed.

(** Lines 212-223: a request without any identifier is answered with 400
    and nothing else happens. *)
Lemma scrape_endpoint_invalid args in_time env w :
  valid args = false ->
  scrape_endpoint args in_time env w
  = (Val (ErrorBody
            "Please provide at least one URL parameter: yelp_url or amazon_url"
            (Some "/scrape?yelp_url=https://www.yelp.com/biz/restaurant-name"),
          400), w).
Proof.
  unfold valid, scrape_endpoint, try_except. intros H.
  apply orb_false_elim in H as [-> ->]. reflexivity.
Qed.

(** An accepted request is the stop of lines 225-229 followed by lines
    231-245 in the state that the stop leaves. *)
Lemma scrape_endpoint_valid args in_time env w w1 :
  valid args = true ->
  stop_existing in_time w = (Val tt, w1) ->
  scrape_endpoint args in_time env w
  = scrape_and_start (yelp_input_of args)
      (amazon_input_of args) (arg_refresh_interval args) env w1.
Proof.
  unfold valid, scrape_endpoint, try_except. intros Hv Hs.
  destruct (truthy (yelp_input_of args)),
    (truthy (amazon_input_of args)); try discriminate; simpl;
    unfold bind at 1; rewrite Hs;
    destruct (scrape_and_start_returns (yelp_input_of args)
                (amazon_input_of args) (arg_refresh_interval args)
                env w1) as (resp & w' & ->); reflexivity.
Qed.

(** C7: a request to [/scrape] in which both identifiers are absent is
    answered with status 400, and the process state is left exactly as it
    was: no call to a scraper is made and [latest_data] and the dict it
    refers to are unchanged. *)
Theorem request_without_identifier_rejected ri in_time env w :
  exists body,
    scrape_endpoint (mkArgs None None ri) in_time env w = (Val (body, 400), w) /\
    fetches (step w (EvScrape (mkArgs None None ri) in_time env)) = fetches w /\
    get_latest (step w (EvScrape (mkArgs None None ri) in_time env))
    = get_latest w.
Proof.
  eexists. unfold step.
  rewrite (scrape_endpoint_invalid (mkArgs None None ri) in_time env w eq_refl).
  repeat split.
Qed.

Lemma interval_not_requested ri :
  interval_requested ri = false <->
  ri = None \/ exists z, ri = Some z /\ (z <= 0)%Z.
Proof.
  unfold interval_requested. destruct ri as [z|].
  - split.
    + intros H. right. exists z. split; [reflexivity|].
      destruct (Z.eqb_spec z 0); [lia|]. simpl in H.
      apply Z.ltb_ge in H. exact H.
    + intros [H|(z' & [= <-] & Hz)]; [discriminate|].
      destruct (Z.eqb_spec z 0); [reflexivity|]. simpl. apply Z.ltb_ge. exact Hz.
  - split; [left; reflexivity|reflexivity].
Qed.

(** C10: with [refresh_interval] absent, zero or negative, a request to
    [/scrape] does exactly what the same request without the parameter
    does; when it names a source it is answered with status 200 (no
    validation error for the interval), the dict in the response has no
    ['background_scraping'] and no ['refresh_interval'] key, no thread is
    created and [scraping_thread] is not rebound. *)
Theorem non_positive_interval_is_one_shot args in_time env w :
  arg_refresh_interval args = None \/
  (exists z, arg_refresh_interval args = Some z /\ (z <= 0)%Z) ->
  scrape_endpoint args in_time env w
  = scrape_endpoint (mkArgs (arg_yelp_url args) (arg_amazon_url args) None)
      in_time env w /\
  (valid args = true ->
   exists d w',
     scrape_endpoint args in_time env w = (Val (Formatted d, 200), w') /\
     background_scraping d = None /\
     refresh_interval d = None /\
     length (threads w') = length (threads w) /\
     scraping_thread w' = scraping_thread w).
Proof.
  intros Hri. apply interval_not_requested in Hri.
  destruct (stop_existing_frame in_time w) as (w1 & Es & St & Len & _).
  destruct (scrape_and_start_one_shot (yelp_input_of args)
              (amazon_input_of args) (arg_refresh_interval args)
              env w1 Hri)
    as (r & w' & ds & d & Ec & E1 & _ & _ & _ & [P1 P2] & (J1 & _ & J3)).
  split.
  - destruct (valid args) eqn:Hv.
    + rewrite (scrape_endpoint_valid args in_time env w w1 Hv Es).
      rewrite (scrape_endpoint_valid
                 (mkArgs (arg_yelp_url args) (arg_amazon_url args) None)
                 in_time env w w1 Hv Es).
      simpl. unfold scrape_and_start.
      destruct (arg_refresh_interval args); [rewrite Hri|]; reflexivity.
    + rewrite !scrape_endpoint_invalid by exact Hv. reflexivity.
  - intros Hv. exists d, w'.
    rewrite (scrape_endpoint_valid args in_time env w w1 Hv Es).
    split; [exact E1|]. split; [exact P1|]. split; [exact P2|].
    split; [rewrite J3; exact Len|rewrite J1; exact St].
Qed.

Lemma non_positive_interval_is_one_shot_witness :
  scrape_endpoint (mkArgs (Some "biz") None (Some (-3)%Z)) None
    (mkEnv (Ok ["r1"]) 1 (Ok []) 0 None) initial_world
  = scrape_endpoint (mkArgs (Some "biz") None None) None
      (mkEnv (Ok ["r1"]) 1 (Ok []) 0 None) initial_world /\
  exists d w',
    scrape_endpoint (mkArgs (Some "biz") None (Some (-3)%Z)) None
      (mkEnv (Ok ["r1"]) 1 (Ok []) 0 None) initial_world
    = (Val (Formatted d, 200), w') /\
    background_scraping d = None /\
    refresh_interval d = None /\
    length (threads w') = length (threads initial_world) /\
    scraping_thread w' = scraping_thread initial_world.
Proof.
  destruct (non_positive_interval_is_one_shot
              (mkArgs (Some "biz") None (Some (-3)%Z)) None
              (mkEnv (Ok ["r1"]) 1 (Ok []) 0 None) initial_world) as [E H].
  - right. exists (-3)%Z. split; [reflexivity|lia].
  - split; [exact E|]. apply H. reflexivity.
Defined.

(** ** The stored dict is changed in place *)

(** C4 does not hold of [scrape_endpoint]: for the request
    [/scrape?yelp_url=biz&refresh_interval=5] on the initial state, the
    cycle stores a dict without a ['background_scraping'] key in
    [latest_data]; when the handler returns, [latest_data] still refers to
    that same object, which now has the keys ['background_scraping'] and
    ['refresh_interval'], and [/latest] reports them. *)
Theorem polling_request_changes_stored_dict :
  exists r w1 d w2 d',
    scrape_reviews "biz" EmptyString (mkEnv (Ok ["r1"]) 1 (Ok []) 0 None) initial_world
    = (Val r, w1) /\
    latest_data w1 = r /\
    heap w1 !! r = Some d /\
    background_scraping d = None /\
    refresh_interval d = None /\
    scrape_endpoint (mkArgs (Some "biz") None (Some 5%Z)) None
      (mkEnv (Ok ["r1"]) 1 (Ok []) 0 None) initial_world
    = (Val (Formatted d', 200), w2) /\
    latest_data w2 = r /\
    heap w2 !! r = Some d' /\
    background_scraping d' = Some true /\
    refresh_interval d' = Some 5%Z /\
    get_latest w2 = (Val (Formatted d', 200), w2).
Proof.
  exists 1,
    (snd (scrape_reviews "biz" EmptyString (mkEnv (Ok ["r1"]) 1 (Ok []) 0 None)
            initial_world)),
    (mkDict (Some 0) ["r1"] [] Success [] None None),
    (snd (scrape_endpoint (mkArgs (Some "biz") None (Some 5%Z)) None
            (mkEnv (Ok ["r1"]) 1 (Ok []) 0 None) initial_world)),
    (mkDict (Some 0) ["r1"] [] Success [] (Some true) (Some 5%Z)).
  repeat (apply conj; [vm_compute; reflexivity|]).
  vm_compute. reflexivity.
Qed.

(** ** The stop request *)

(** Lines 264-281 are the stop of lines 225-229 with a response that says
    whether there was a thread to stop. *)
Lemma stop_scraping_endpoint_spec in_time w :
  exists w1,
    stop_existing in_time w = (Val tt, w1) /\
    stop_scraping_endpoint in_time w
    = (Val (if job_alive w
            then (MessageBody "Background scraping stopped" "success", 200)
            else (MessageBody "No background scraping active" "info", 200)),
       w1) /\
    (job_alive w = false -> w1 = w).
Proof.
  unfold stop_scraping_endpoint, stop_existing, try_except, job_alive, bind,
    get_world.
  destruct (scraping_thread w) as [tid|].
  2:{ exists w. repeat split. }
  destruct (is_alive tid w).
  2:{ exists w. repeat split. }
  destruct (set_join_clear_spec tid in_time w) as (w1 & E & _).
  exists w1. rewrite E. repeat split. discriminate.
Qed.

(** ** Invariants of the running service *)




Lemma run_cons w ev evs : run w (ev :: evs) = run (step w ev) evs.
Proof. reflexivity. Qed.









(** ** At most one polling job *)


(** In that state the superseded thread completes its cycle and rebinds
    [latest_data], after the immediate cycle of the second request. *)
Example superseded_job_still_writes :
  let w := run initial_world supersede_with_timeout in
  live_jobs w = [0; 1] /\
  scraping_thread w = Some 1 /\
  latest_data w = 2 /\
  latest_data (step w (EvThread 0 (mkEnv (Ok ["r3"]) 9 (Ok []) 0 None))) = 3 /\
  live_jobs (step w (EvThread 0 (mkEnv (Ok ["r3"]) 9 (Ok []) 0 None))) = [0; 1].
Proof.
  repeat (apply conj; [vm_compute; reflexivity|]). vm_compute. reflexivity.
Qed.

(** A later request whose own join is acknowledged does not restore the
    invariant: it stops the thread started last, and the thread that the
    timed-out join left running stays alive beside the new one. *)
Example acknowledged_join_after_timeout_keeps_two_jobs :
  let w := run initial_world supersede_with_timeout in
  acknowledged (Some (mkEnv (Ok []) 0 (Ok []) 0 None)) w /\
  live_jobs
    (step w (EvScrape (mkArgs (Some "biz") None (Some 1%Z))
               (Some (mkEnv (Ok []) 0 (Ok []) 0 None))
               (mkEnv (Ok ["r3"]) 1 (Ok []) 0 None))) = [0; 2].
Proof.
  split; [intros tid _ _; reflexivity|]. vm_compute. reflexivity.
Qed.

(** Without any join timing out: two [/scrape] requests that overlap on a
    service with no polling thread both find nothing to stop and both start
    a thread. *)
Example overlapping_requests_start_two_jobs :
  live_jobs
    (snd (overlapping_scrapes
            (mkArgs (Some "biz") None (Some 1%Z))
            (mkArgs None (Some "B08N5WRWNW") (Some 2%Z))
            (mkEnv (Ok ["r1"]) 1 (Ok []) 0 None)
            (mkEnv (Ok []) 0 (Ok ["r2"]) 1 None)
            initial_world)) = [0; 1].
Proof. vm_compute. reflexivity. Qed.




(** ** Stopping *)


(** In that state the thread left running goes on polling: its cycle
    completes and rebinds [latest_data], and no stop request reaches it. *)
Example superseded_job_outlives_stop :
  let w := run initial_world stop_after_supersede in
  live_jobs w = [0] /\
  scraping_thread w = Some 1 /\
  fst (stop_scraping_endpoint None w)
  = Val (MessageBody "No background scraping active" "info", 200) /\
  live_jobs (run w [EvStop None; EvThread 0 (mkEnv (Ok ["r3"]) 9 (Ok []) 0 None);
                    EvStop None]) = [0] /\
  latest_data (run w [EvStop None;
                      EvThread 0 (mkEnv (Ok ["r3"]) 9 (Ok []) 0 None)]) = 3.
Proof.
  repeat (apply conj; [vm_compute; reflexivity|]). vm_compute. reflexivity.
Qed.



(** ** Unexpected conditions *)


(** C5 does not hold of [background_scraper]: the request
    [/scrape?yelp_url=biz&refresh_interval=10000000000] is accepted and
    starts a thread; the thread runs its first cycle, which succeeds and
    is stored; it then calls [stop_scraping.wait(10000000000)] with the
    event clear, the call raises, nothing in lines 159-164 catches it, and
    the thread has ended although the stop event was never set. *)
Theorem overlong_interval_ends_the_loop :
  is_alive 0
    (step initial_world
       (EvScrape (mkArgs (Some "biz") None (Some 10000000000%Z)) None
          (mkEnv (Ok ["r1"]) 1 (Ok []) 0 None))) = true /\
  thread_pc 0
    (run initial_world
       [EvScrape (mkArgs (Some "biz") None (Some 10000000000%Z)) None
          (mkEnv (Ok ["r1"]) 1 (Ok []) 0 None);
        EvThread 0 (mkEnv (Ok []) 0 (Ok []) 0 None);
        EvThread 0 (mkEnv (Ok []) 0 (Ok []) 0 None)]) = InCycle /\
  stop_scraping
    (run initial_world
       [EvScrape (mkArgs (Some "biz") None (Some 10000000000%Z)) None
          (mkEnv (Ok ["r1"]) 1 (Ok []) 0 None);
        EvThread 0 (mkEnv (Ok []) 0 (Ok []) 0 None);
        EvThread 0 (mkEnv (Ok []) 0 (Ok []) 0 None)]) = false /\
  get_latest
    (run initial_world
       [EvScrape (mkArgs (Some "biz") None (Some 10000000000%Z)) None
          (mkEnv (Ok ["r1"]) 1 (Ok []) 0 None);
        EvThread 0 (mkEnv (Ok []) 0 (Ok []) 0 None);
        EvThread 0 (mkEnv (Ok []) 0 (Ok []) 0 None);
        EvThread 0 (mkEnv (Ok ["r1"; "r2"]) 1 (Ok []) 0 None)])
  = (Val (Formatted (mkDict (Some 1) ["r1"; "r2"] [] Success [] None None), 200),
     run initial_world
       [EvScrape (mkArgs (Some "biz") None (Some 10000000000%Z)) None
          (mkEnv (Ok ["r1"]) 1 (Ok []) 0 None);
        EvThread 0 (mkEnv (Ok []) 0 (Ok []) 0 None);
        EvThread 0 (mkEnv (Ok []) 0 (Ok []) 0 None);
        EvThread 0 (mkEnv (Ok ["r1"; "r2"]) 1 (Ok []) 0 None)]) /\
  stop_scraping
    (run initial_world
       [EvScrape (mkArgs (Some "biz") None (Some 10000000000%Z)) None
          (mkEnv (Ok ["r1"]) 1 (Ok []) 0 None);
        EvThread 0 (mkEnv (Ok []) 0 (Ok []) 0 None);
        EvThread 0 (mkEnv (Ok []) 0 (Ok []) 0 None);
        EvThread 0 (mkEnv (Ok ["r1"; "r2"]) 1 (Ok []) 0 None)]) = false /\
  is_alive 0
    (run initial_world
       [EvScrape (mkArgs (Some "biz") None (Some 10000000000%Z)) None
          (mkEnv (Ok ["r1"]) 1 (Ok []) 0 None);
        EvThread 0 (mkEnv (Ok []) 0 (Ok []) 0 None);
        EvThread 0 (mkEnv (Ok []) 0 (Ok []) 0 None);
        EvThread 0 (mkEnv (Ok ["r1"; "r2"]) 1 (Ok []) 0 None)]) = false.
Proof.
  repeat (apply conj; [vm_compute; reflexivity|]). vm_compute. reflexivity.
Qed.

(** ** Every kind of event at once *)

Lemma stop_existing_cases in_time w :
  stop_existing in_time w = (Val tt, w) \/
  exists tid,
    scraping_thread w = Some tid /\
    is_alive tid w = true /\
    stop_existing in_time w
    = (Val tt,
       set_stop_scraping false
         (snd (threads_outside_cycle_return
                 (thread_step tid in_time
                    (thread_step tid in_time (set_stop_scraping true w)))))).
Proof.
  unfold stop_existing, bind, get_world.
  destruct (scraping_thread w) as [tid|]; [|left; reflexivity].
  destruct (is_alive tid w) eqn:Hal; [|left; reflexivity].
  right. exists tid. rewrite set_join_clear_run.
  split; [reflexivity|]. split; [exact Hal|reflexivity].
Qed.

(** A relation between states that is reflexive and transitive and holds
    across a change of the stop event, a step of a thread, the return of
    the threads that see the event and lines 231-245 holds across every
    event. *)
Lemma step_related (R : World -> World -> Prop) :
  (forall w, R w w) ->
  (forall w1 w2 w3, R w1 w2 -> R w2 w3 -> R w1 w3) ->
  (forall b w, R w (set_stop_scraping b w)) ->
  (forall tid env w, R w (thread_step tid env w)) ->
  (forall w, R w (snd (threads_outside_cycle_return w))) ->
  (forall y a ri env w, R w (snd (scrape_and_start y a ri env w))) ->
  forall w ev, R w (step w ev).
Proof.
  intros Hrefl Htrans Hflag Hthread Hseen Hscrape.
  assert (Hstop : forall in_time w w1,
             stop_existing in_time w = (Val tt, w1) -> R w w1).
  { intros in_time w w1 E.
    destruct (stop_existing_cases in_time w) as [E'|(tid & _ & _ & E')];
      rewrite E' in E; injection E as <-; [apply Hrefl|].
    eapply Htrans; [apply Hflag|].
    eapply Htrans; [apply Hthread|].
    eapply Htrans; [apply Hthread|].
    eapply Htrans; [apply Hseen|apply Hflag]. }
  intros w [args in_time env|in_time| |tid env]; simpl.
  - destruct (valid args) eqn:Hv.
    2:{ rewrite scrape_endpoint_invalid by exact Hv. apply Hrefl. }
    destruct (stop_existing_frame in_time w) as (w1 & Es & _).
    rewrite (scrape_endpoint_valid args in_time env w w1 Hv Es).
    eapply Htrans; [apply (Hstop _ _ _ Es)|apply Hscrape].
  - destruct (stop_scraping_endpoint_spec in_time w) as (w1 & Es & -> & _).
    apply (Hstop _ _ _ Es).
  - apply Hrefl.
  - apply Hthread.
Qed.

Lemma run_related (R : World -> World -> Prop) :
  (forall w, R w w) ->
  (forall w1 w2 w3, R w1 w2 -> R w2 w3 -> R w1 w3) ->
  (forall w ev, R w (step w ev)) ->
  forall evs w, R w (run w evs).
Proof.
  intros Hrefl Htrans Hstep. induction evs as [|ev evs IH]; intros w.
  - apply Hrefl.
  - rewrite run_cons. eapply Htrans; [apply Hstep|apply IH].
Qed.

(** A step of a thread either completes a cycle of [scrape_reviews] on the
    thread's own arguments, or leaves dicts, store, clock readings of
    fetches and the calls made as they were. *)
Lemma thread_step_cases tid env w :
  (exists t e r w1,
     threads w !! tid = Some t /\ thr_pc t = InCycle /\ env = Some e /\
     scrape_reviews (thr_yelp t) (thr_amazon t) e w = (Val r, w1) /\
     heap (thread_step tid env w) = heap w1 /\
     latest_data (thread_step tid env w) = latest_data w1 /\
     fetches (thread_step tid env w) = fetches w1) \/
  (heap (thread_step tid env w) = heap w /\
   latest_data (thread_step tid env w) = latest_data w /\
   fetches (thread_step tid env w) = fetches w /\
   (thread_pc tid w = InCycle -> env = None)).
Proof.
  remember (thread_step tid env w) as w' eqn:E.
  unfold thread_step, background_scraper_step in E.
  unfold bind at 1, get_world at 1 in E. unfold thread_pc.
  destruct (threads w !! tid) as [t|] eqn:Ht.
  2:{ right. simpl in E. subst w'. repeat split. discriminate. }
  destruct (thr_pc t) eqn:Hpc.
  - right. subst w'. repeat split. discriminate.
  - right. revert E. destruct (stop_scraping w); intros ->; repeat split;
      discriminate.
  - destruct env as [e|].
    + left. unfold bind at 1 in E.
      destruct (scrape_reviews_returns (thr_yelp t) (thr_amazon t) e w)
        as (r & w1 & ds & d & Er & _).
      rewrite Er in E. unfold bind at 1, get_world at 1 in E.
      exists t, e, r, w1. split; [reflexivity|]. split; [exact Hpc|].
      split; [reflexivity|]. split; [exact Er|].
      revert E.
      destruct (stop_scraping w1); [|destruct (TIMEOUT_MAX <? thr_interval t)%Z];
        intros ->; repeat split.
    + right. simpl in E. subst w'. repeat split.
  - right. revert E. destruct (stop_scraping w); intros ->; repeat split;
      discriminate.
  - right. simpl in E. subst w'. repeat split. discriminate.
Qed.

(** ** The dict of a cycle, whatever the environment does *)

Lemma scrape_reviews_dict y a env w :
  exists r w' d,
    scrape_reviews y a env w = (Val r, w') /\
    heap w' !! r = Some d /\
    latest_data w' = r /\
    (d = cycle_dict y a env (now w) \/ exists e t, d = failed_dict e t).
Proof.
  unfold scrape_reviews, try_except.
  destruct (scrape_reviews_body_frame y a env w) as (res & w1 & -> & _ & _ & R).
  destruct res as [r|e].
  - destruct R as (-> & L & H & _).
    exists (length (heap w)), w1, (cycle_dict y a env (now w)).
    split; [reflexivity|]. split; [rewrite H; apply lookup_last|].
    split; [exact L|left; reflexivity].
  - destruct (scrape_reviews_handler_run e w1) as (w' & -> & _ & H & L & _).
    exists (length (heap w1)), w', (failed_dict e (now w1)).
    split; [reflexivity|]. split; [rewrite H; apply lookup_last|].
    split; [exact L|right; eauto].
Qed.

Lemma cycle_dict_well_formed y a env t : well_formed (cycle_dict y a env t).
Proof.
  unfold cycle_dict, classify, source_update, well_formed.
  destruct (truthy y), (truthy a),
    (source_outcome Yelp env) as [[|r1 ry]|ey],
    (source_outcome Amazon env) as [[|r2 ra]|ea]; simpl;
    (split; [eexists; reflexivity|]);
    repeat split; try reflexivity; try discriminate;
    try (left; discriminate); try (right; discriminate).
Qed.

Lemma failed_dict_well_formed e t : well_formed (failed_dict e t).
Proof.
  split; [eexists; reflexivity|]. simpl. repeat split. discriminate.
Qed.

(** X1. Whatever the scrapers do and whether or not an unexpected
    condition is raised, the dict that [scrape_reviews] returns and stores
    has a timestamp and a status other than ['no_data']; ['errors'] is
    empty exactly when the status is ['success']; a ['failed'] dict holds
    no review and a ['partial_success'] dict holds at least one. *)
Theorem cycle_dict_is_well_formed y a env w :
  exists r w' d,
    scrape_reviews y a env w = (Val r, w') /\
    latest_data w' = r /\
    heap w' !! r = Some d /\
    well_formed d /\
    (errors d = [] <-> status d = Success).
Proof.
  destruct (scrape_reviews_dict y a env w) as (r & w' & d & E & H & L & D).
  exists r, w', d. split; [exact E|]. split; [exact L|]. split; [exact H|].
  assert (W : well_formed d).
  { destruct D as [->|(e & t & ->)];
      [apply cycle_dict_well_formed|apply failed_dict_well_formed]. }
  split; [exact W|].
  destruct W as [_ W]. destruct (status d); split; intros Hs;
    try discriminate; try contradiction; try reflexivity; try exact W;
    destruct W as [W _]; contradiction.
Qed.

Lemma reviews_classify d :
  yelp_reviews (classify d) = yelp_reviews d /\
  amazon_reviews (classify d) = amazon_reviews d.
Proof.
  unfold classify.
  repeat match goal with |- context [if ?b then _ else _] => destruct b end;
    split; reflexivity.
Qed.

(** X2. In a cycle in which no unexpected condition is raised, the list
    stored for a source is exactly the list its scraper returned; it is
    empty when the source was not requested or its call raised. What one
    source does has no influence on the list of the other. *)
Theorem reviews_pass_through y a env w :
  env_unexpected env = None ->
  exists r w' d,
    scrape_reviews y a env w = (Val r, w') /\
    heap w' !! r = Some d /\
    yelp_reviews d = contributed y (env_yelp env) /\
    amazon_reviews d = contributed a (env_amazon env).
Proof.
  intros Hu.
  destruct (scrape_reviews_clean y a env w Hu) as (w' & E & _ & H & _).
  exists (length (heap w)), w', (cycle_dict y a env (now w)).
  split; [exact E|]. split; [rewrite H; apply lookup_last|].
  unfold cycle_dict. destruct (reviews_classify
    (source_update Amazon a env
       (source_update Yelp y env (mkDict (Some (now w)) [] [] Success [] None None))))
    as [-> ->].
  unfold source_update, contributed. simpl.
  destruct (truthy y), (truthy a), (env_yelp env), (env_amazon env);
    split; reflexivity.
Qed.

Lemma reviews_pass_through_witness :
  exists r w' d,
    scrape_reviews "biz" "B08N5WRWNW"
      (mkEnv (Ok ["r1"; "r2"; "r3"]) 2 (Err "blocked") 1 None) initial_world
    = (Val r, w') /\
    heap w' !! r = Some d /\
    yelp_reviews d = contributed "biz" (Ok ["r1"; "r2"; "r3"]) /\
    amazon_reviews d = contributed "B08N5WRWNW" (Err "blocked").
Proof.
  apply (reviews_pass_through "biz" "B08N5WRWNW"
           (mkEnv (Ok ["r1"; "r2"; "r3"]) 2 (Err "blocked") 1 None)
           initial_world).
  reflexivity.
Defined.

(** X3. In a cycle in which no unexpected condition is raised, a source
    whose identifier is the empty string is skipped: its scraper is not
    called and it leaves no entry in ['errors']. With both identifiers
    empty such a cycle calls no scraper and still returns a dict with
    status ['success'] (not ['no_data']), no review and no error. *)
Theorem empty_identifier_skips_source y a env w :
  env_unexpected env = None ->
  exists r w' d,
    scrape_reviews y a env w = (Val r, w') /\
    heap w' !! r = Some d /\
    (truthy y = false ->
     Forall (fun f => fetch_source f <> Yelp)
       (drop (length (fetches w)) (fetches w')) /\
     errors d = match env_amazon env with
                | Err msg =>
                    if truthy a then ["Amazon scraping failed: " +:+ msg] else []
                | Ok _ => []
                end) /\
    (truthy a = false ->
     Forall (fun f => fetch_source f <> Amazon)
       (drop (length (fetches w)) (fetches w')) /\
     errors d = match env_yelp env with
                | Err msg =>
                    if truthy y then ["Yelp scraping failed: " +:+ msg] else []
                | Ok _ => []
                end) /\
    (truthy y = false -> truthy a = false ->
     fetches w' = fetches w /\
     d = mkDict (Some (now w)) [] [] Success [] None None).
Proof.
  intros Hu.
  destruct (scrape_reviews_clean y a env w Hu) as (w' & E & _ & H & _ & F & _).
  exists (length (heap w)), w', (cycle_dict y a env (now w)).
  split; [exact E|]. split; [rewrite H; apply lookup_last|].
  rewrite F, drop_app_length.
  unfold cycle_fetches, source_fetches, cycle_dict, source_update.
  split; [|split].
  - intros ->. simpl. split.
    + destruct (truthy a); repeat constructor; discriminate.
    + rewrite errors_classify.
      destruct (truthy a), (env_amazon env); reflexivity.
  - intros ->. rewrite app_nil_r. split.
    + destruct (truthy y); repeat constructor; discriminate.
    + rewrite errors_classify. simpl.
      destruct (truthy y), (env_yelp env); reflexivity.
  - intros -> ->. simpl. rewrite app_nil_r. split; reflexivity.
Qed.

Lemma empty_identifier_skips_source_witness :
  exists r w' d,
    scrape_reviews EmptyString EmptyString
      (mkEnv (Ok ["r1"]) 2 (Err "blocked") 1 None) initial_world = (Val r, w') /\
    heap w' !! r = Some d /\
    fetches w' = fetches initial_world /\
    d = mkDict (Some (now initial_world)) [] [] Success [] None None.
Proof.
  destruct (empty_identifier_skips_source EmptyString EmptyString
              (mkEnv (Ok ["r1"]) 2 (Err "blocked") 1 None) initial_world)
    as (r & w' & d & E & H & _ & _ & B).
  - reflexivity.
  - exists r, w', d. split; [exact E|]. split; [exact H|].
    apply B; reflexivity.
Defined.

(** X4. When Yelp's call raises and a statement of its [except] block
    raises in turn, the cycle is abandoned there: Amazon's scraper is not
    called, whatever its identifier, and the dict returned and stored is
    the ['failed'] dict of the outer handler, whose timestamp is read after
    the Yelp call has ended. *)
Theorem failure_in_yelp_handler_skips_amazon y a env w msg e :
  truthy y = true ->
  env_yelp env = Err msg ->
  env_unexpected env = Some (InYelpExcept, e) ->
  exists r w',
    scrape_reviews y a env w = (Val r, w') /\
    fetches w' = fetches w ++ [mkFetch Yelp y (now w)] /\
    latest_data w' = r /\
    heap w' !! r = Some (failed_dict e (now w + env_yelp_secs env)).
Proof.
  intros Hy Ho Hu.
  destruct w as [n h l st sf ts fs lg], env as [oy sy oa sa u].
  simpl in Ho, Hu. subst oy u.
  unfold scrape_reviews, scrape_reviews_body, scrape_reviews_handler,
    scrape_source, try_except.
  rewrite Hy. exec.
  eexists _, _. split; [reflexivity|]. simpl.
  split; [reflexivity|]. split; [reflexivity|]. apply lookup_last.
Qed.

Lemma failure_in_yelp_handler_skips_amazon_witness :
  exists r w',
    scrape_reviews "biz" "B08N5WRWNW"
      (mkEnv (Err "HTTP 503") 2 (Ok ["r1"]) 1 (Some (InYelpExcept, "bad str")))
      initial_world = (Val r, w') /\
    fetches w' = fetches initial_world ++ [mkFetch Yelp "biz" (now initial_world)] /\
    latest_data w' = r /\
    heap w' !! r = Some (failed_dict "bad str" (now initial_world + 2)).
Proof.
  apply (failure_in_yelp_handler_skips_amazon "biz" "B08N5WRWNW"
           (mkEnv (Err "HTTP 503") 2 (Ok ["r1"]) 1
              (Some (InYelpExcept, "bad str")))
           initial_world "HTTP 503" "bad str"); reflexivity.
Defined.

(** ** Request and response *)

(** X5. The response of [/latest] right after an accepted request to
    [/scrape] has the body and status of the response to that request: the
    dict of the immediate cycle is the one in the store, with the two keys
    of lines 242-243 when polling was started. *)
Theorem latest_repeats_scrape_response args in_time env w :
  valid args = true ->
  exists d w',
    scrape_endpoint args in_time env w = (Val (Formatted d, 200), w') /\
    heap w' !! latest_data w' = Some d /\
    get_latest w' = (Val (Formatted d, 200), w').
Proof.
  intros Hv.
  destruct (stop_existing_frame in_time w) as (w1 & Es & _).
  rewrite (scrape_endpoint_valid args in_time env w w1 Hv Es).
  unfold get_latest, try_except, bind, get_world, read_dict, ret.
  destruct (interval_requested (arg_refresh_interval args)) eqn:Hri.
  - destruct (arg_refresh_interval args) as [z|]; [|discriminate].
    destruct (scrape_and_start_polling (yelp_input_of args)
                (amazon_input_of args) z env w1 Hri)
      as (r & w2 & ds & d & w' & _ & _ & -> & _ & _ & E & H & L & _).
    exists (with_refresh_interval z (with_background_scraping true d)), w'.
    split; [exact E|]. rewrite L, H, lookup_total_last.
    split; [apply lookup_last|reflexivity].
  - destruct (scrape_and_start_one_shot (yelp_input_of args)
                (amazon_input_of args) (arg_refresh_interval args) env w1 Hri)
      as (r & w' & ds & d & _ & E & H & -> & L & _).
    exists d, w'. split; [exact E|]. rewrite L, H, lookup_total_last.
    split; [apply lookup_last|reflexivity].
Qed.

Lemma latest_repeats_scrape_response_witness :
  exists d w',
    scrape_endpoint (mkArgs (Some "biz") None (Some 5%Z)) None
      (mkEnv (Ok ["r1"]) 1 (Ok []) 0 None) initial_world
    = (Val (Formatted d, 200), w') /\
    heap w' !! latest_data w' = Some d /\
    get_latest w' = (Val (Formatted d, 200), w').
Proof.
  apply (latest_repeats_scrape_response (mkArgs (Some "biz") None (Some 5%Z))
           None (mkEnv (Ok ["r1"]) 1 (Ok []) 0 None) initial_world).
  reflexivity.
Defined.

Lemma interval_requested_positive z :
  interval_requested (Some z) = true <-> (0 < z)%Z.
Proof.
  unfold interval_requested. destruct (Z.eqb_spec z 0) as [->|Hz]; simpl.
  - split; [discriminate|lia].
  - apply Z.ltb_lt.
Qed.

(** X6. An accepted request with a positive [refresh_interval] creates
    exactly one thread, not yet run, whose arguments are the identifiers
    and the interval of the request, and rebinds [scraping_thread] to it;
    the response has status 200 and its dict carries
    ['background_scraping'] = True and the interval; the stop event is as
    the stop of lines 225-229 left it. *)
Theorem positive_interval_starts_polling args in_time env w z :
  valid args = true ->
  arg_refresh_interval args = Some z ->
  (0 < z)%Z ->
  exists d w',
    scrape_endpoint args in_time env w = (Val (Formatted d, 200), w') /\
    background_scraping d = Some true /\
    refresh_interval d = Some z /\
    threads w' !! length (threads w)
    = Some (mkThread (yelp_input_of args) (amazon_input_of args) z Fresh) /\
    length (threads w') = S (length (threads w)) /\
    scraping_thread w' = Some (length (threads w)) /\
    is_alive (length (threads w)) w' = true.
Proof.
  intros Hv Hri Hz.
  destruct (stop_existing_frame in_time w) as (w1 & Es & _ & Len & _).
  rewrite (scrape_endpoint_valid args in_time env w w1 Hv Es), Hri.
  apply interval_requested_positive in Hz.
  destruct (scrape_and_start_polling (yelp_input_of args)
              (amazon_input_of args) z env w1 Hz)
    as (r & w2 & ds & d & w' & _ & _ & _ & _ & _ & E & _ & _ & T & S & _).
  exists (with_refresh_interval z (with_background_scraping true d)), w'.
  split; [exact E|]. split; [reflexivity|]. split; [reflexivity|].
  rewrite <- Len.
  assert (Hl : threads w' !! length (threads w1)
               = Some (mkThread (yelp_input_of args) (amazon_input_of args) z Fresh))
    by (rewrite T; apply lookup_last).
  split; [exact Hl|].
  split; [rewrite T, length_app; simpl; lia|]. split; [exact S|].
  apply is_alive_true. unfold thread_pc. rewrite Hl. discriminate.
Qed.

Lemma positive_interval_starts_polling_witness :
  exists d w',
    scrape_endpoint (mkArgs (Some "biz") (Some "B08N5WRWNW") (Some 30%Z)) None
      (mkEnv (Ok ["r1"]) 1 (Err "blocked") 2 None) initial_world
    = (Val (Formatted d, 200), w') /\
    background_scraping d = Some true /\
    refresh_interval d = Some 30%Z /\
    threads w' !! length (threads initial_world)
    = Some (mkThread "biz" "B08N5WRWNW" 30 Fresh) /\
    length (threads w') = S (length (threads initial_world)) /\
    scraping_thread w' = Some (length (threads initial_world)) /\
    is_alive (length (threads initial_world)) w' = true.
Proof.
  apply (positive_interval_starts_polling
           (mkArgs (Some "biz") (Some "B08N5WRWNW") (Some 30%Z)) None
           (mkEnv (Ok ["r1"]) 1 (Err "blocked") 2 None) initial_world 30%Z);
    [reflexivity|reflexivity|lia].
Defined.

(** ** Invariants of every run *)

Lemma well_formed_with_keys z d :
  well_formed d ->
  well_formed (with_refresh_interval z (with_background_scraping true d)).
Proof. intros W. exact W. Qed.

Lemma store_ok_scrape_and_start y a ri env w :
  store_ok (snd (scrape_and_start y a ri env w)).
Proof.
  destruct (interval_requested ri) eqn:Hri.
  - destruct ri as [z|]; [|discriminate].
    destruct (scrape_and_start_polling y a z env w Hri)
      as (r & w1 & ds & d & w' & Ec & H1 & -> & _ & _ & -> & H & L & _).
    destruct (scrape_reviews_dict y a env w) as (r' & w1' & d' & Ec' & Hd & _ & D).
    rewrite Ec in Ec'. injection Ec' as <- <-.
    rewrite H1, lookup_last in Hd. injection Hd as <-.
    exists (with_refresh_interval z (with_background_scraping true d)).
    simpl. rewrite L, H. split; [apply lookup_last|]. right.
    apply well_formed_with_keys.
    destruct D as [->|(e & t & ->)];
      [apply cycle_dict_well_formed|apply failed_dict_well_formed].
  - destruct (scrape_and_start_one_shot y a ri env w Hri)
      as (r & w' & ds & d & Ec & -> & H & -> & L & _).
    destruct (scrape_reviews_dict y a env w) as (r' & w1' & d' & Ec' & Hd & _ & D).
    rewrite Ec in Ec'. injection Ec' as <- <-.
    rewrite H, lookup_last in Hd. injection Hd as <-.
    exists d. simpl. rewrite L, H. split; [apply lookup_last|]. right.
    destruct D as [->|(e & t & ->)];
      [apply cycle_dict_well_formed|apply failed_dict_well_formed].
Qed.

Lemma store_ok_thread_step tid env w :
  store_ok w -> store_ok (thread_step tid env w).
Proof.
  intros Hok.
  destruct (thread_step_cases tid env w)
    as [(t & e & r & w1 & _ & _ & _ & Ec & H & L & _)|(H & L & _)].
  - destruct (scrape_reviews_dict (thr_yelp t) (thr_amazon t) e w)
      as (r' & w1' & d & Ec' & Hd & Ld & D).
    rewrite Ec in Ec'. injection Ec' as <- <-.
    exists d. unfold store_ok. rewrite L, H, Ld. split; [exact Hd|]. right.
    destruct D as [->|(e' & t' & ->)];
      [apply cycle_dict_well_formed|apply failed_dict_well_formed].
  - unfold store_ok. rewrite L, H. exact Hok.
Qed.

(** X7. In every state that the service reaches, whatever requests, thread
    steps and join outcomes led to it, [latest_data] refers to an existing
    dict, [/latest] answers 200 with it, and it is either the initial
    ['no_data'] dict or a dict with a timestamp whose status, ['errors']
    and review lists agree as lines 121-125 and 136-142 set them. *)
Theorem latest_is_always_well_formed evs :
  exists d,
    heap (run initial_world evs) !! latest_data (run initial_world evs)
    = Some d /\
    get_latest (run initial_world evs)
    = (Val (Formatted d, 200), run initial_world evs) /\
    (d = initial_dict \/ well_formed d).
Proof.
  assert (Hok : store_ok (run initial_world evs)).
  { apply (run_related (fun w w' => store_ok w -> store_ok w')).
    - auto.
    - auto.
    - apply (step_related (fun w w' => store_ok w -> store_ok w')).
      + auto.
      + auto.
      + intros b w H. exact H.
      + intros tid env w. apply store_ok_thread_step.
      + intros w H. exact H.
      + intros y a ri env w _. apply store_ok_scrape_and_start.
    - exists initial_dict. split; [reflexivity|left; reflexivity]. }
  destruct Hok as (d & Hd & W). exists d. split; [exact Hd|]. split; [|exact W].
  unfold get_latest, try_except, bind, get_world, read_dict, ret.
  rewrite (list_lookup_total_correct _ _ _ Hd). reflexivity.
Qed.

(** X8. The writes of a request handler or of a step of a polling thread
    only reach dicts that it has created itself: every dict that exists
    when a [/scrape], [/stop] or [/latest] handler or a thread step starts
    is left as it was by that handler or step. The in-place updates of
    lines 103-119 and 242-243 go to the dict created at line 91 of the
    same call. *)
Theorem handler_changes_only_its_own_dicts w ev i d :
  heap w !! i = Some d ->
  heap (step w ev) !! i = Some d.
Proof.
  revert i d.
  apply (step_related
           (fun w w' => forall i d, heap w !! i = Some d -> heap w' !! i = Some d)).
  - auto.
  - auto.
  - intros b w0 i d H. exact H.
  - intros tid env w0. apply thread_step_spec.
  - intros w0 i d H. exact H.
  - intros y a ri env w0 i d Hi.
    destruct (interval_requested ri) eqn:Hri.
    + destruct ri as [z|]; [|discriminate].
      destruct (scrape_and_start_polling y a z env w0 Hri)
        as (r & w1 & ds & d0 & w' & _ & _ & _ & _ & _ & -> & H & _).
      simpl. rewrite H, <- app_assoc. apply lookup_app_l_Some. exact Hi.
    + destruct (scrape_and_start_one_shot y a ri env w0 Hri)
        as (r & w' & ds & d0 & _ & -> & H & _).
      simpl. rewrite H, <- app_assoc. apply lookup_app_l_Some. exact Hi.
Qed.

Lemma handler_changes_only_its_own_dicts_witness :
  heap (step (run initial_world polling_then_in_cycle)
          (EvScrape (mkArgs (Some "biz") None (Some 2%Z))
             (Some (mkEnv (Ok ["r2"]) 3 (Ok []) 0 None))
             (mkEnv (Err "HTTP 503") 1 (Ok []) 0 None))) !! 1
  = Some (mkDict (Some 0) ["r1"] [] Success [] (Some true) (Some 1%Z)).
Proof.
  apply (handler_changes_only_its_own_dicts
           (run initial_world polling_then_in_cycle)).
  vm_compute. reflexivity.
Defined.

Lemma lookup_alter_with_pc p tid (ts : list Thread) j t' :
  alter (with_pc p) tid ts !! j = Some t' ->
  exists t, ts !! j = Some t /\ same_args t t'.
Proof.
  destruct (decide (j = tid)) as [->|Hne].
  - rewrite list_lookup_alter_eq. destruct (ts !! tid) as [t|]; [|discriminate].
    intros [= <-]. exists t. repeat split.
  - rewrite list_lookup_alter_ne by congruence.
    intros H. exists t'. repeat split. exact H.
Qed.


Lemma threads_scrape_and_start y a ri env w :
  threads (snd (scrape_and_start y a ri env w)) = threads w \/
  exists z, (0 < z)%Z /\
            threads (snd (scrape_and_start y a ri env w))
            = threads w ++ [mkThread y a z Fresh].
Proof.
  destruct (interval_requested ri) eqn:Hri.
  - destruct ri as [z|]; [|discriminate]. right. exists z.
    split; [apply interval_requested_positive; exact Hri|].
    destruct (scrape_and_start_polling y a z env w Hri)
      as (r & w1 & ds & d0 & w' & _ & _ & _ & _ & _ & -> & _ & _ & T & _).
    exact T.
  - left. destruct (scrape_and_start_one_shot y a ri env w Hri)
      as (r & w' & ds & d0 & _ & -> & _ & _ & _ & _ & (_ & _ & J3)).
    exact J3.
Qed.



(** X10. In every state that the service reaches, whatever requests and
    thread steps led to it, every thread ever started has a positive
    refresh interval: line 235 lets no other value through, and the
    arguments of a thread never change. *)
Theorem polling_intervals_are_positive evs j t :
  threads (run initial_world evs) !! j = Some t ->
  (0 < thr_interval t)%Z.
Proof.
  revert j t.
  apply (run_related
           (fun w w' =>
              (forall j t, threads w !! j = Some t -> (0 < thr_interval t)%Z) ->
              forall j t, threads w' !! j = Some t -> (0 < thr_interval t)%Z)).
  - auto.
  - intros w1 w2 w3 H12 H23 H1. apply H23, H12, H1.
  - apply (step_related
             (fun w w' =>
                (forall j t, threads w !! j = Some t -> (0 < thr_interval t)%Z) ->
                forall j t, threads w' !! j = Some t -> (0 < thr_interval t)%Z)).
    + auto.
    + intros w1 w2 w3 H12 H23 H1. apply H23, H12, H1.
    + intros b w0 H. exact H.
    + intros tid env' w0 H j t Hj.
      destruct (thread_step_spec tid env' w0) as (_ & _ & T & _).
      rewrite T in Hj. apply lookup_alter_with_pc in Hj
        as (t0 & Hj0 & (_ & _ & C)).
      rewrite C. apply (H j t0 Hj0).
    + intros w0 H j t Hj. simpl in Hj. rewrite list_lookup_fmap in Hj.
      destruct (threads w0 !! j) as [t0|] eqn:Hj0; [|discriminate].
      injection Hj as <-. specialize (H j t0 Hj0).
      unfold return_outside_cycle.
      destruct (outside_cycle (thr_pc t0)); exact H.
    + intros y a ri env' w0 H j t Hj.
      destruct (threads_scrape_and_start y a ri env' w0) as [T|(z & Hz & T)];
        rewrite T in Hj; [apply (H j t Hj)|].
      apply lookup_app_Some in Hj as [Hj|[_ Hj]]; [apply (H j t Hj)|].
      destruct (j - length (threads w0)); [|discriminate].
      injection Hj as <-. exact Hz.
  - intros j t Hj. destruct j; discriminate Hj.
Qed.

Lemma polling_intervals_are_positive_witness :
  (0 < thr_interval (mkThread "biz" EmptyString 1 InCycle))%Z.
Proof.
  apply (polling_intervals_are_positive polling_then_in_cycle 0).
  vm_compute. reflexivity.
Defined.

(** ** Stop requests and the thread's place *)

Lemma thread_step_fetching tid w :
  thread_pc tid w = InCycle -> thread_step tid None w = w.
Proof.
  unfold thread_step, background_scraper_step, thread_pc.
  unfold bind at 1, get_world at 1.
  destruct (threads w !! tid) as [t|]; [|discriminate].
  intros ->. reflexivity.
Qed.

(** X11. A stop request whose join times out, the thread that
    [scraping_thread] refers to being inside a cycle, still answers that
    background scraping was stopped. That thread is where it was, with its
    arguments; the stop event is clear again; dicts and [latest_data] are
    untouched. The only threads that the request has ended are other
    threads that were outside a cycle while the event was set. The next
    step of the thread completes its cycle and calls
    [wait(refresh_interval)]: with an interval of at most [TIMEOUT_MAX]
    seconds the thread is then in the wait, alive; with a longer one the
    call raises and the thread has ended. *)
Theorem timed_out_stop_stops_nothing w tid t :
  scraping_thread w = Some tid ->
  threads w !! tid = Some t ->
  thr_pc t = InCycle ->
  exists resp w',
    stop_scraping_endpoint None w = (Val resp, w') /\
    stopped resp = true /\
    stop_scraping w' = false /\
    threads w' !! tid = Some t /\
    threads w' = return_outside_cycle <$> threads w /\
    heap w' = heap w /\
    latest_data w' = latest_data w /\
    forall env,
      thread_pc tid (step w' (EvThread tid env))
      = (if (TIMEOUT_MAX <? thr_interval t)%Z then Finished else InWait) /\
      is_alive tid (step w' (EvThread tid env))
      = negb (TIMEOUT_MAX <? thr_interval t)%Z.
Proof.
  intros Hst Ht Hc.
  assert (Hpc : thread_pc tid w = InCycle)
    by (unfold thread_pc; rewrite Ht; exact Hc).
  assert (Hal : is_alive tid w = true)
    by (apply is_alive_true; rewrite Hpc; discriminate).
  assert (Es' : stop_existing None w
                = (Val tt,
                   set_stop_scraping false
                     (snd (threads_outside_cycle_return
                             (set_stop_scraping true w))))).
  { unfold stop_existing, bind, get_world.
    rewrite Hst, Hal, set_join_clear_run.
    rewrite !(thread_step_fetching tid (set_stop_scraping true w) Hpc).
    reflexivity. }
  destruct (stop_scraping_endpoint_spec None w) as (w1 & Es & E & _).
  rewrite Es' in Es. injection Es as Ew.
  assert (Hj : job_alive w = true) by (unfold job_alive; rewrite Hst; exact Hal).
  rewrite Hj in E.
  assert (T1 : threads w1 = return_outside_cycle <$> threads w)
    by (rewrite <- Ew; reflexivity).
  assert (S1 : stop_scraping w1 = false) by (rewrite <- Ew; reflexivity).
  assert (H1 : heap w1 = heap w) by (rewrite <- Ew; reflexivity).
  assert (L1 : latest_data w1 = latest_data w) by (rewrite <- Ew; reflexivity).
  clear Ew Es'.
  assert (Ht1 : threads w1 !! tid = Some t).
  { rewrite T1, list_lookup_fmap, Ht. simpl. unfold return_outside_cycle.
    rewrite Hc. reflexivity. }
  exists (MessageBody "Background scraping stopped" "success", 200), w1.
  split; [exact E|]. split; [reflexivity|]. split; [exact S1|].
  split; [exact Ht1|]. split; [exact T1|]. split; [exact H1|].
  split; [exact L1|].
  intros env.
  assert (P : thread_pc tid (step w1 (EvThread tid env))
              = (if (TIMEOUT_MAX <? thr_interval t)%Z then Finished else InWait)).
  { cbn [step]. rewrite thread_pc_step.
    destruct (decide (tid = tid)); [|congruence].
    unfold thread_pc, too_long. rewrite Ht1, Hc, S1. reflexivity. }
  split; [exact P|]. revert P.
  generalize (step w1 (EvThread tid env)).
  intros w2 P. destruct (TIMEOUT_MAX <? thr_interval t)%Z.
  - apply is_alive_false. exact P.
  - apply is_alive_true. rewrite P. discriminate.
Qed.

Lemma timed_out_stop_stops_nothing_witness :
  exists resp w',
    stop_scraping_endpoint None (run initial_world polling_then_in_cycle)
    = (Val resp, w') /\
    stopped resp = true /\
    stop_scraping w' = false /\
    forall env,
      thread_pc 0 (step w' (EvThread 0 env)) = InWait /\
      is_alive 0 (step w' (EvThread 0 env)) = true.
Proof.
  destruct (timed_out_stop_stops_nothing
              (run initial_world polling_then_in_cycle) 0
              (mkThread "biz" EmptyString 1 InCycle))
    as (resp & w' & E & S & F & _ & _ & _ & _ & T).
  - vm_compute. reflexivity.
  - vm_compute. reflexivity.
  - reflexivity.
  - exists resp, w'. split; [exact E|]. split; [exact S|]. split; [exact F|exact T].
Defined.

Lemma next_pc_stop_not_in_cycle pc c overlong :
  pc <> InCycle -> next_pc pc true c overlong <> InCycle.
Proof. destruct pc, c; simpl; congruence. Qed.

Lemma thread_step_outside_cycle tid env w :
  thread_pc tid w <> InCycle ->
  heap (thread_step tid env w) = heap w /\
  latest_data (thread_step tid env w) = latest_data w /\
  fetches (thread_step tid env w) = fetches w.
Proof.
  intros Hpc.
  destruct (thread_step_cases tid env w)
    as [(t & e & r & w1 & Ht & Hc & _)|(H & L & F & _)].
  - contradiction Hpc. unfold thread_pc. rewrite Ht. exact Hc.
  - repeat split; assumption.
Qed.

(** X12. A stop request (or the stop of lines 225-229) that finds the
    thread anywhere but inside a cycle ends it at once, whatever the
    timing: the thread has returned when the handler answers, and it has
    made no call to a scraper and written nothing on the way, so no cycle
    is started or completed because of the stop. *)
Theorem stop_outside_cycle_is_immediate in_time w tid :
  scraping_thread w = Some tid ->
  is_alive tid w = true ->
  thread_pc tid w <> InCycle ->
  exists resp w',
    stop_scraping_endpoint in_time w = (Val resp, w') /\
    stopped resp = true /\
    is_alive tid w' = false /\
    heap w' = heap w /\
    latest_data w' = latest_data w /\
    fetches w' = fetches w.
Proof.
  intros Hst Hal Hpc.
  destruct (stop_scraping_endpoint_spec in_time w) as (w1 & Es & E & _).
  assert (Hj : job_alive w = true) by (unfold job_alive; rewrite Hst; exact Hal).
  rewrite Hj in E.
  destruct (set_join_clear_spec tid in_time w) as (w1' & Ej & _ & _ & _ & P & _).
  assert (Es' : stop_existing in_time w = (Val tt, w1')).
  { unfold stop_existing, bind, get_world. rewrite Hst, Hal. exact Ej. }
  rewrite Es' in Es. injection Es as <-.
  rewrite set_join_clear_run in Ej. injection Ej as Ew.
  exists (MessageBody "Background scraping stopped" "success", 200), w1'.
  split; [exact E|]. split; [reflexivity|].
  split.
  { apply is_alive_false. rewrite P. apply seen_finished.
    destruct (decide (tid = tid)); [|congruence].
    apply join_pc_finished. intros Habs. contradiction. }
  set (w0 := set_stop_scraping true w) in Ew.
  assert (Hpc0 : thread_pc tid w0 <> InCycle) by exact Hpc.
  assert (Hpc1 : thread_pc tid (thread_step tid in_time w0) <> InCycle).
  { rewrite thread_pc_step. destruct (decide (tid = tid)); [|congruence].
    apply next_pc_stop_not_in_cycle. exact Hpc0. }
  destruct (thread_step_outside_cycle tid in_time w0 Hpc0) as (H0 & L0 & F0).
  destruct (thread_step_outside_cycle tid in_time _ Hpc1) as (H1 & L1 & F1).
  rewrite <- Ew. simpl. rewrite H1, H0, L1, L0, F1, F0. repeat split.
Qed.

Lemma stop_outside_cycle_is_immediate_witness :
  exists resp w',
    stop_scraping_endpoint None
      (run initial_world
         [EvScrape (mkArgs (Some "biz") None (Some 1%Z)) None
            (mkEnv (Ok ["r1"]) 1 (Ok []) 0 None);
          EvThread 0 (mkEnv (Ok []) 0 (Ok []) 0 None);
          EvThread 0 (mkEnv (Ok []) 0 (Ok []) 0 None);
          EvThread 0 (mkEnv (Ok ["r2"]) 2 (Ok []) 0 None)])
    = (Val resp, w') /\
    stopped resp = true /\
    is_alive 0 w' = false.
Proof.
  destruct (stop_outside_cycle_is_immediate None
              (run initial_world
                 [EvScrape (mkArgs (Some "biz") None (Some 1%Z)) None
                    (mkEnv (Ok ["r1"]) 1 (Ok []) 0 None);
                  EvThread 0 (mkEnv (Ok []) 0 (Ok []) 0 None);
                  EvThread 0 (mkEnv (Ok []) 0 (Ok []) 0 None);
                  EvThread 0 (mkEnv (Ok ["r2"]) 2 (Ok []) 0 None)]) 0)
    as (resp & w' & E & S & A & _).
  - vm_compute. reflexivity.
  - vm_compute. reflexivity.
  - vm_compute. discriminate.
  - exists resp, w'. split; [exact E|]. split; assumption.
Defined.

(** ** The polling loop *)

Lemma thread_step_wait_times_out tid t env w :
  threads w !! tid = Some t ->
  thr_pc t = InWait ->
  stop_scraping w = false ->
  thread_step tid env w
  = set_threads (alter (with_pc AtLoopTop) tid (threads w))
      (set_now (now w + Z.to_nat (thr_interval t)) w).
Proof.
  intros Ht Hpc Hf. unfold thread_step, background_scraper_step.
  unfold bind at 1, get_world at 1. rewrite Ht, Hpc, Hf. reflexivity.
Qed.

Lemma thread_step_loop_top tid t env w :
  threads w !! tid = Some t ->
  thr_pc t = AtLoopTop ->
  stop_scraping w = false ->
  thread_step tid env w
  = set_threads (alter (with_pc InCycle) tid (threads w)) w.
Proof.
  intros Ht Hpc Hf. unfold thread_step, background_scraper_step.
  unfold bind at 1, get_world at 1. rewrite Ht, Hpc, Hf. reflexivity.
Qed.

(** X13. The loop of lines 159-164 with the stop event clear and a
    refresh interval that [Event.wait] accepts (at most [TIMEOUT_MAX]
    seconds): a thread that is in the wait of line 163 waits
    [refresh_interval] seconds and then enters its next cycle; in between
    it calls no scraper and writes nothing. Completing that next cycle runs
    [scrape_reviews] once more on the same identifiers and takes the thread
    back to the wait. *)
Theorem wait_then_next_cycle tid t env1 env2 w :
  threads w !! tid = Some t ->
  thr_pc t = InWait ->
  (thr_interval t <= TIMEOUT_MAX)%Z ->
  stop_scraping w = false ->
  thread_pc tid (run w [EvThread tid env1; EvThread tid env2]) = InCycle /\
  now (run w [EvThread tid env1; EvThread tid env2])
  = now w + Z.to_nat (thr_interval t) /\
  heap (run w [EvThread tid env1; EvThread tid env2]) = heap w /\
  latest_data (run w [EvThread tid env1; EvThread tid env2]) = latest_data w /\
  fetches (run w [EvThread tid env1; EvThread tid env2]) = fetches w /\
  forall env3,
    thread_pc tid
      (run w [EvThread tid env1; EvThread tid env2; EvThread tid env3])
    = InWait /\
    exists r w1,
      scrape_reviews (thr_yelp t) (thr_amazon t) env3
        (run w [EvThread tid env1; EvThread tid env2]) = (Val r, w1) /\
      latest_data
        (run w [EvThread tid env1; EvThread tid env2; EvThread tid env3]) = r /\
      fetches
        (run w [EvThread tid env1; EvThread tid env2; EvThread tid env3])
      = fetches w1.
Proof.
  intros Ht Hpc Hmax Hf. unfold run. cbn [foldl].
  assert (E1 : step w (EvThread tid env1)
               = set_threads (alter (with_pc AtLoopTop) tid (threads w))
                   (set_now (now w + Z.to_nat (thr_interval t)) w))
    by (apply (thread_step_wait_times_out tid t); assumption).
  assert (Ht1 : threads (step w (EvThread tid env1)) !! tid
                = Some (with_pc AtLoopTop t)).
  { rewrite E1. unfold set_threads. cbn [threads].
    rewrite list_lookup_alter_eq, Ht. reflexivity. }
  assert (Hf1 : stop_scraping (step w (EvThread tid env1)) = false)
    by (rewrite E1; exact Hf).
  assert (N1 : now (step w (EvThread tid env1))
               = now w + Z.to_nat (thr_interval t)) by (rewrite E1; reflexivity).
  assert (H1 : heap (step w (EvThread tid env1)) = heap w)
    by (rewrite E1; reflexivity).
  assert (L1 : latest_data (step w (EvThread tid env1)) = latest_data w)
    by (rewrite E1; reflexivity).
  assert (F1 : fetches (step w (EvThread tid env1)) = fetches w)
    by (rewrite E1; reflexivity).
  clear E1.
  generalize dependent (step w (EvThread tid env1)). intros w1 Ht1 Hf1 N1 H1 L1 F1.
  assert (E2 : step w1 (EvThread tid env2)
               = set_threads (alter (with_pc InCycle) tid (threads w1)) w1)
    by (apply (thread_step_loop_top tid (with_pc AtLoopTop t));
        [exact Ht1|reflexivity|exact Hf1]).
  assert (Ht2 : threads (step w1 (EvThread tid env2)) !! tid
                = Some (with_pc InCycle t)).
  { rewrite E2. unfold set_threads. cbn [threads].
    rewrite list_lookup_alter_eq, Ht1. reflexivity. }
  assert (Hf2 : stop_scraping (step w1 (EvThread tid env2)) = false)
    by (rewrite E2; exact Hf1).
  assert (N2 : now (step w1 (EvThread tid env2)) = now w1) by (rewrite E2; reflexivity).
  assert (H2 : heap (step w1 (EvThread tid env2)) = heap w1)
    by (rewrite E2; reflexivity).
  assert (L2 : latest_data (step w1 (EvThread tid env2)) = latest_data w1)
    by (rewrite E2; reflexivity).
  assert (F2 : fetches (step w1 (EvThread tid env2)) = fetches w1)
    by (rewrite E2; reflexivity).
  clear E2.
  generalize dependent (step w1 (EvThread tid env2)). intros w2 Ht2 Hf2 N2 H2 L2 F2.
  split; [unfold thread_pc; rewrite Ht2; reflexivity|].
  split; [congruence|]. split; [congruence|]. split; [congruence|].
  split; [congruence|].
  intros env3. change (step w2 (EvThread tid env3))
    with (thread_step tid (Some env3) w2). split.
  - rewrite thread_pc_step. destruct (decide (tid = tid)); [|congruence].
    unfold thread_pc, too_long. rewrite Ht2, Hf2. simpl.
    destruct (Z.ltb_spec TIMEOUT_MAX (thr_interval t)); [lia|reflexivity].
  - destruct (thread_step_cases tid (Some env3) w2)
      as [(t2 & e & r & w3 & Ht2' & _ & [= <-] & Ec & _ & L & F)|(_ & _ & _ & Habs)].
    + rewrite Ht2 in Ht2'. injection Ht2' as <-. simpl in Ec.
      destruct (scrape_reviews_dict (thr_yelp t) (thr_amazon t) env3 w2)
        as (r' & w3' & d & Ec' & _ & L' & _).
      rewrite Ec in Ec'. injection Ec' as <- <-.
      exists r, w3. split; [exact Ec|]. split; [simpl; congruence|exact F].
    + unfold thread_pc in Habs. rewrite Ht2 in Habs.
      discriminate (Habs eq_refl).
Qed.

Lemma wait_then_next_cycle_witness :
  thread_pc 0
    (run (run initial_world
            [EvScrape (mkArgs (Some "biz") None (Some 4%Z)) None
               (mkEnv (Ok ["r1"]) 1 (Ok []) 0 None);
             EvThread 0 (mkEnv (Ok []) 0 (Ok []) 0 None);
             EvThread 0 (mkEnv (Ok []) 0 (Ok []) 0 None);
             EvThread 0 (mkEnv (Ok ["r2"]) 2 (Ok []) 0 None)])
       [EvThread 0 (mkEnv (Ok []) 0 (Ok []) 0 None);
        EvThread 0 (mkEnv (Ok []) 0 (Ok []) 0 None)]) = InCycle /\
  now (run (run initial_world
              [EvScrape (mkArgs (Some "biz") None (Some 4%Z)) None
                 (mkEnv (Ok ["r1"]) 1 (Ok []) 0 None);
               EvThread 0 (mkEnv (Ok []) 0 (Ok []) 0 None);
               EvThread 0 (mkEnv (Ok []) 0 (Ok []) 0 None);
               EvThread 0 (mkEnv (Ok ["r2"]) 2 (Ok []) 0 None)])
         [EvThread 0 (mkEnv (Ok []) 0 (Ok []) 0 None);
          EvThread 0 (mkEnv (Ok []) 0 (Ok []) 0 None)]) = 3 + 4.
Proof.
  destruct (wait_then_next_cycle 0 (mkThread "biz" EmptyString 4 InWait)
              (mkEnv (Ok []) 0 (Ok []) 0 None) (mkEnv (Ok []) 0 (Ok []) 0 None)
              (run initial_world
                 [EvScrape (mkArgs (Some "biz") None (Some 4%Z)) None
                    (mkEnv (Ok ["r1"]) 1 (Ok []) 0 None);
                  EvThread 0 (mkEnv (Ok []) 0 (Ok []) 0 None);
                  EvThread 0 (mkEnv (Ok []) 0 (Ok []) 0 None);
                  EvThread 0 (mkEnv (Ok ["r2"]) 2 (Ok []) 0 None)]))
    as (P & N & _).
  - vm_compute. reflexivity.
  - reflexivity.
  - vm_compute. discriminate.
  - vm_compute. reflexivity.
  - split; [exact P|]. rewrite N. vm_compute. reflexivity.
Defined.



(** X15. A polling thread whose refresh interval is above [TIMEOUT_MAX]
    seconds does not survive its cycle: with the stop event clear, the
    cycle runs [scrape_reviews] on the thread's identifiers and its dict is
    stored, then the call [stop_scraping.wait(refresh_interval)] of line
    163 raises, and the thread has ended with the stop event still clear.
    Line 235 accepts every positive interval, so a request can start such
    a thread. *)
Theorem overlong_interval_thread_dies tid t env w :
  threads w !! tid = Some t ->
  thr_pc t = InCycle ->
  stop_scraping w = false ->
  (TIMEOUT_MAX < thr_interval t)%Z ->
  exists r w1,
    scrape_reviews (thr_yelp t) (thr_amazon t) env w = (Val r, w1) /\
    latest_data (step w (EvThread tid env)) = r /\
    is_alive tid (step w (EvThread tid env)) = false /\
    stop_scraping (step w (EvThread tid env)) = false.
Proof.
  intros Ht Hpc Hf Hmax. cbn [step].
  destruct (thread_step_spec tid (Some env) w) as (_ & S & _).
  assert (P : thread_pc tid (thread_step tid (Some env) w) = Finished).
  { rewrite thread_pc_step. destruct (decide (tid = tid)); [|congruence].
    unfold thread_pc, too_long. rewrite Ht, Hpc, Hf. simpl.
    destruct (Z.ltb_spec TIMEOUT_MAX (thr_interval t)); [reflexivity|lia]. }
  destruct (thread_step_cases tid (Some env) w)
    as [(t2 & e & r & w1 & Ht2 & _ & [= <-] & Ec & _ & L & _)|(_ & _ & _ & Habs)].
  - rewrite Ht in Ht2. injection Ht2 as <-.
    destruct (scrape_reviews_dict (thr_yelp t) (thr_amazon t) env w)
      as (r' & w1' & d & Ec' & _ & L' & _).
    rewrite Ec in Ec'. injection Ec' as <- <-.
    exists r, w1. split; [exact Ec|]. split; [congruence|].
    split; [apply is_alive_false; exact P|]. rewrite S. exact Hf.
  - unfold thread_pc in Habs. rewrite Ht, Hpc in Habs.
    discriminate (Habs eq_refl).
Qed.

Lemma overlong_interval_thread_dies_witness :
  exists r w1,
    scrape_reviews "biz" EmptyString (mkEnv (Ok ["r1"; "r2"]) 1 (Ok []) 0 None)
      (run initial_world
         [EvScrape (mkArgs (Some "biz") None (Some 9223372037%Z)) None
            (mkEnv (Ok ["r1"]) 1 (Ok []) 0 None);
          EvThread 0 (mkEnv (Ok []) 0 (Ok []) 0 None);
          EvThread 0 (mkEnv (Ok []) 0 (Ok []) 0 None)]) = (Val r, w1) /\
    latest_data
      (step (run initial_world
               [EvScrape (mkArgs (Some "biz") None (Some 9223372037%Z)) None
                  (mkEnv (Ok ["r1"]) 1 (Ok []) 0 None);
                EvThread 0 (mkEnv (Ok []) 0 (Ok []) 0 None);
                EvThread 0 (mkEnv (Ok []) 0 (Ok []) 0 None)])
         (EvThread 0 (mkEnv (Ok ["r1"; "r2"]) 1 (Ok []) 0 None))) = r /\
    is_alive 0
      (step (run initial_world
               [EvScrape (mkArgs (Some "biz") None (Some 9223372037%Z)) None
                  (mkEnv (Ok ["r1"]) 1 (Ok []) 0 None);
                EvThread 0 (mkEnv (Ok []) 0 (Ok []) 0 None);
                EvThread 0 (mkEnv (Ok []) 0 (Ok []) 0 None)])
         (EvThread 0 (mkEnv (Ok ["r1"; "r2"]) 1 (Ok []) 0 None))) = false /\
    stop_scraping
      (step (run initial_world
               [EvScrape (mkArgs (Some "biz") None (Some 9223372037%Z)) None
                  (mkEnv (Ok ["r1"]) 1 (Ok []) 0 None);
                EvThread 0 (mkEnv (Ok []) 0 (Ok []) 0 None);
                EvThread 0 (mkEnv (Ok []) 0 (Ok []) 0 None)])
         (EvThread 0 (mkEnv (Ok ["r1"; "r2"]) 1 (Ok []) 0 None))) = false.
Proof.
  apply (overlong_interval_thread_dies 0
           (mkThread "biz" EmptyString 9223372037 InCycle)).
  - vm_compute. reflexivity.
  - reflexivity.
  - vm_compute. reflexivity.
  - vm_compute. reflexivity.
Defined.
